(** * wollok-ts-cli: the [test] command

    A shallow embedding of [src/commands/test.ts] and of the printing
    helpers of [src/utils.ts] it calls, with the properties of target
    selection, traversal, reporting and exit status.

    Layout:
    - [JS]: the ECMAScript string primitives the sources call;
    - [Wollok]: the part of the wollok-ts object model the command reads;
    - [Utils]: [src/utils.ts];
    - [TestCommand]: [src/commands/test.ts];
    - the properties, one section per function. *)

From Stdlib Require Import String Ascii List Arith ZArith Lia Bool Permutation.
From Stdlib Require Import Numbers.DecimalString.
Import ListNotations.
Open Scope string_scope.

(* ------------------------------------------------------------------ *)
(** ** ECMAScript string primitives *)

Module JS.

(** [ToBoolean] on a [string | undefined]: [undefined] and the empty
    string are falsy. *)
Definition truthy (v : option string) : bool :=
  match v with
  | Some (String _ _) => true
  | _ => false
  end.

(** [a ?? b]. *)
Definition nullish {A : Type} (a : option A) (b : A) : A :=
  match a with
  | Some x => x
  | None => b
  end.

(** [s.includes(pat)]: [pat] occurs in [s] at some position. *)
Fixpoint includes (s pat : string) : bool :=
  prefix pat s ||
  match s with
  | EmptyString => false
  | String _ s' => includes s' pat
  end.

(** [s.indexOf(pat)]: position of the first occurrence, [-1] if none. *)
Definition indexOf (s pat : string) : Z :=
  match index 0 pat s with
  | Some n => Z.of_nat n
  | None => (-1)%Z
  end.

(** [s.slice(start, end)], negative positions counting from the end. *)
Definition slice (s : string) (start end_ : Z) : string :=
  let len := Z.of_nat (String.length s) in
  let clamp i := if (i <? 0)%Z then Z.max (len + i) 0 else Z.min i len in
  let from := clamp start in
  let to := clamp end_ in
  substring (Z.to_nat from) (Z.to_nat (Z.max (to - from) 0)) s.

(** [s.replaceAll(pat, rep)] for a string pattern: occurrences are taken
    left to right and do not overlap. [skip] counts the characters of a
    matched occurrence still to be consumed. *)
Fixpoint replaceAll_from (skip : nat) (pat rep s : string) : string :=
  match s with
  | EmptyString =>
      match pat with
      | EmptyString => rep
      | String _ _ => EmptyString
      end
  | String c s' =>
      match skip with
      | S k => replaceAll_from k pat rep s'
      | O =>
          if prefix pat s then
            match pat with
            | EmptyString => rep ++ String c (replaceAll_from 0 pat rep s')
            | String _ p => rep ++ replaceAll_from (String.length p) pat rep s'
            end
          else String c (replaceAll_from 0 pat rep s')
      end
  end.

Definition replaceAll (s pat rep : string) : string :=
  replaceAll_from 0 pat rep s.

(** [s.split(sep)] for a one-character separator, which is what both
    call sites pass. *)
Fixpoint split (s : string) (sep : ascii) : list string :=
  match s with
  | EmptyString => [EmptyString]
  | String c s' =>
      if Ascii.eqb c sep then EmptyString :: split s' sep
      else
        match split s' sep with
        | seg :: rest => String c seg :: rest
        | [] => [String c EmptyString]
        end
  end.

(** [a ?? b] where [b] may be [undefined] too. *)
Definition nullish_opt {A : Type} (a b : option A) : option A :=
  match a with
  | Some _ => a
  | None => b
  end.

(** [value?.f()]. *)
Definition optional {A B : Type} (value : option A) (f : A -> B) : option B :=
  match value with
  | Some v => Some (f v)
  | None => None
  end.

(** [parts.join(sep)]; an [undefined] element is rendered as the empty
    string. *)
Definition join (parts : list (option string)) (sep : string) : string :=
  String.concat sep (map (fun part => nullish part EmptyString) parts).

(** [s.repeat(count)]. *)
Fixpoint repeat (s : string) (count : nat) : string :=
  match count with
  | O => EmptyString
  | S k => s ++ repeat s k
  end.

(** [`${n}`] for a non-negative integer. *)
Definition ofNat (n : nat) : string :=
  NilEmpty.string_of_uint (Nat.to_uint n).

Definition quote : string := String (ascii_of_nat 34) EmptyString.
Definition tab : string := String (ascii_of_nat 9) EmptyString.
Definition newline : ascii := ascii_of_nat 10.
Definition dot : ascii := ascii_of_nat 46.

End JS.

(* ------------------------------------------------------------------ *)
(** ** The wollok-ts object model, as far as the command reads it *)

Module Wollok.

(** A node of the environment is a JavaScript object: it is known by its
    reference, [===] is equality of references, and its attributes are
    read from the heap. *)
Definition Node : Type := nat.

(** The heap of linked nodes. The getters are wollok-ts's; what they
    return, and the order in which [descendants] and [forEach] list the
    nodes, are the library's business and are left open here. *)
Record Heap : Type := {
  is_Test : Node -> bool;                (* node.is(Test) *)
  is_Entity : Node -> bool;              (* node.is(Entity) *)
  name : Node -> string;                 (* node.name *)
  fullyQualifiedName : Node -> string;   (* node.fullyQualifiedName *)
  isOnly : Node -> bool;                 (* test.isOnly *)
  descendants : Node -> list Node;       (* node.descendants *)
  forEach : Node -> list Node            (* the nodes node.forEach(tx) hands to tx, in order *)
}.

(** A JavaScript [Error]: its message and its rendered stack. *)
Record Error : Type := {
  message : string;
  stack : option string
}.

Inductive Level : Type := warning | error.

Record Problem : Type := {
  level : Level;
  code : string;
  sourceInfo : option string             (* `${problem.node?.sourceInfo}` *)
}.

Record FileContent : Type := {
  file_name : string;                    (* name *)
  content : string
}.

(** The collaborators the command calls: the file system, wollok-ts's
    builder, validator and interpreter, the logger's level and the
    imported constant. An [Error] is what the call throws; for
    [interpret] and [exec], [None] is a call that returns. Each test runs
    in a fork of the interpreter, so how it ends depends on the test
    alone. *)
Record Platform : Type := {
  WOLLOK_EXTRA_STACK_TRACE_HEADER : string;
  debug : bool;                                       (* logger.getLevel() <= logger.levels.DEBUG *)
  captureStack : string -> option string;             (* the stack of a [new Error(message)] *)
  readProjectFiles : string -> Error + list FileContent; (* globby, then readFile on every path *)
  buildEnvironment : list FileContent -> Error + Node;
  validate : Node -> Error + list Problem;
  interpret : Node -> option Error;                   (* interpret(environment, natives) *)
  exec : Node -> option Error                         (* interpreter.fork().exec(node) *)
}.

(** chalk's styles wrap a text in escape sequences that depend on the
    terminal. *)
Record Chalk : Type := {
  red : string -> string;
  green : string -> string;
  blue : string -> string;
  yellow : string -> string;
  yellowBright : string -> string;
  bold : string -> string;
  italic : string -> string
}.

End Wollok.

(* ------------------------------------------------------------------ *)
(** ** Effects: what the process does, in order *)

Module Effect.
Import Wollok.
Local Open Scope list_scope.

Inductive Event : Type :=
| Info (args : list string)          (* logger.info(...args) *)
| LogError (args : list string)      (* logger.error(...args) *)
| Debug (args : list string)         (* logger.debug(...args) *)
| DebugValue (e : Error)             (* logger.debug(error) *)
| Log                                (* console.log() *)
| Time (label : string)              (* console.time(label) *)
| TimeEnd (label : string)           (* console.timeEnd(label) *)
| ReadProject (project : string)     (* the project's files are read *)
| Build                              (* buildEnvironment(files) *)
| Validate (environment : Node)      (* validate(environment) *)
| Interpret (environment : Node)     (* interpret(environment, natives) *)
| Exec (node : Node).                (* interpreter.fork().exec(node) *)

(** How a statement ends: it returns, it throws, or the process is
    terminated by [process.exit(code)]. *)
Inductive Outcome (A : Type) : Type :=
| Ret (a : A)
| Throw (e : Error)
| Halt (code : Z).
Arguments Ret {A} a.
Arguments Throw {A} e.
Arguments Halt {A} code.

Definition M (A : Type) : Type := list Event * Outcome A.

Definition ret {A : Type} (a : A) : M A := ([], Ret a).

Definition bind {A B : Type} (m : M A) (k : A -> M B) : M B :=
  match m with
  | (t, Ret a) => let (t', o) := k a in (t ++ t', o)
  | (t, Throw e) => (t, Throw e)
  | (t, Halt c) => (t, Halt c)
  end.

Definition emit (ev : Event) : M unit := ([ev], Ret tt).
Definition throw {A : Type} (e : Error) : M A := ([], Throw e).
Definition exit {A : Type} (code : Z) : M A := ([], Halt code).

(** [try { m } catch (e) { h e }]. *)
Definition catch {A : Type} (m : M A) (h : Error -> M A) : M A :=
  match m with
  | (t, Throw e) => let (t', o) := h e in (t ++ t', o)
  | _ => m
  end.

(** [try { m } finally { f }], for an [f] that returns. *)
Definition finally {A : Type} (m : M A) (f : list Event) : M A :=
  let (t, o) := m in (t ++ f, o).

(** A call answered by a collaborator. *)
Definition call {A : Type} (r : Error + A) : M A :=
  match r with
  | inl e => throw e
  | inr a => ret a
  end.

Definition when (b : bool) (m : M unit) : M unit :=
  if b then m else ret tt.

(** [array.forEach] with a callback that updates [s]. *)
Fixpoint forEachM {A S : Type} (f : A -> S -> M S) (l : list A) (s : S) : M S :=
  match l with
  | [] => ret s
  | x :: l' => bind (f x s) (forEachM f l')
  end.

Definition trace {A : Type} (m : M A) : list Event := fst m.
Definition outcome {A : Type} (m : M A) : Outcome A := snd m.

(** The status the process ends with: the argument of [process.exit],
    [0] when the command returns and nothing is left to run, [1] when an
    exception escapes. *)
Definition exitCode {A : Type} (m : M A) : Z :=
  match outcome m with
  | Ret _ => 0%Z
  | Throw _ => 1%Z
  | Halt c => c
  end.

End Effect.

Declare Scope effect_scope.
Delimit Scope effect_scope with eff.
Notation "x <- m ;; k" := (Effect.bind m (fun x => k))
  (at level 61, m at next level, right associativity) : effect_scope.
Notation "m ;;; k" := (Effect.bind m (fun _ => k))
  (at level 61, right associativity) : effect_scope.

(* ------------------------------------------------------------------ *)
(** ** [src/utils.ts] *)

Module Utils.
Import Wollok Effect.
Local Open Scope eff.

Section Utils.
Variable chalk : Chalk.
Variable P : Platform.

Definition ENTER : string := String JS.newline EmptyString.

(** [new Error(message)]. *)
Definition newError (msg : string) : Error :=
  {| message := msg; stack := captureStack P msg |}.

Definition buildEnvironmentForProject (project : string) : M Node :=
  when (debug P) (emit (Time "Reading project files")) ;;;
  emit (ReadProject project) ;;;
  environmentFiles <- call (readProjectFiles P project) ;;
  when (debug P) (emit (TimeEnd "Reading project files")) ;;;
  when (debug P) (emit (Time "Building environment")) ;;;
  finally
    (emit Build ;;; call (buildEnvironment P environmentFiles))
    (if debug P then [TimeEnd "Building environment"] else []).

Definition valueDescription (val : string) : string :=
  italic chalk (blue chalk val).

Definition successDescription (description : string) : string :=
  green chalk (bold chalk "✓" ++ " " ++ description).

(** The two constants [failureDescription] starts with. *)
Definition indexOfTsStack (e : option Error) : option Z :=
  match e with
  | Some err =>
      JS.optional (stack err)
        (fun s => JS.indexOf s (WOLLOK_EXTRA_STACK_TRACE_HEADER P))
  | None => None
  end.

Definition fullStack (e : option Error) : string :=
  JS.nullish
    match e with
    | Some err =>
        JS.optional (stack err)
          (fun s => JS.slice s 0 (JS.nullish (indexOfTsStack e) (-1)%Z))
    | None => None
    end
    EmptyString.

(** Its third constant, [stack]. *)
Definition indentedStack (e : option Error) : string :=
  JS.join
    (map Some
       (JS.split
          (JS.replaceAll
             (JS.replaceAll
                (JS.replaceAll (fullStack e) JS.tab "  ")
                "     " "  ")
             "    " "  ")
          JS.newline))
    (String JS.newline "  ").

Definition failureDescription (description : string) (e : option Error) : string :=
  let stack := indentedStack e in
  red chalk
    (bold chalk "✗" ++ " " ++ description ++
     (if JS.truthy (Some stack) then String JS.newline "  " ++ stack
      else EmptyString)).

Definition toUpperCase (l : Level) : string :=
  match l with
  | warning => "WARNING"
  | error => "ERROR"
  end.

Definition problemDescription (problem : Problem) : string :=
  let color :=
    match level problem with
    | warning => yellowBright chalk
    | error => red chalk
    end in
  let header := bold chalk ("[" ++ toUpperCase (level problem) ++ "]") in
  color (header ++ ": " ++ code problem ++ " at " ++
         JS.nullish (sourceInfo problem) "unknown").

Definition is_error (problem : Problem) : bool :=
  match level problem with
  | error => true
  | warning => false
  end.

Definition validateEnvironment (environment : Node) (skipValidations : bool) : M unit :=
  if negb skipValidations then
    catch
      (emit (Validate environment) ;;;
       problems <- call (validate P environment) ;;
       forEachM (fun problem _ => emit (Info [problemDescription problem]))
         problems tt ;;;
       if (List.length problems =? 0)%nat then
         emit (Info [successDescription "No problems found building the environment!"])
       else if existsb is_error problems then
         throw (newError "Aborting run due to validation errors!")
       else ret tt)
      (fun err =>
         emit (DebugValue err) ;;;
         throw (newError ("Fatal error while running validations. " ++ message err)))
  else ret tt.

Definition handleError (err : Error) : M unit :=
  emit (LogError [red chalk (bold chalk "💥 Uh-oh... Unexpected Error!")]) ;;;
  emit (LogError [red chalk (message err)]) ;;;
  emit (Debug [failureDescription "ℹ️ Stack trace:" (Some err)]).

End Utils.
End Utils.

(* ------------------------------------------------------------------ *)
(** ** [src/commands/test.ts] *)

Module TestCommand.
Import Wollok Effect.
Local Open Scope eff.

Record Options : Type := {
  file : option string;
  describe : option string;
  test : option string;
  project : string;
  skipValidations : bool
}.

(** [targets.includes(node)] on an array of nodes: reference equality. *)
Definition includes (nodes : list Node) (node : Node) : bool :=
  existsb (Nat.eqb node) nodes.

Definition sanitize (value : option string) : option string :=
  JS.optional value (fun v => JS.replaceAll v JS.quote EmptyString).

Definition tabulationForNode (fullyQualifiedName : string) : string :=
  JS.repeat "  " (List.length (JS.split fullyQualifiedName JS.dot) - 1).

Section Selection.
Variable h : Heap.

(** The constants of [getTarget], one definition each, under their own
    names. *)
Definition fqnByOptionalParameters (o : Options) : string :=
  JS.join (filter JS.truthy [file o; describe o; test o]) ".".

Definition filterTest (flt : option string) (o : Options) : string :=
  JS.nullish
    (JS.nullish_opt (sanitize flt) (Some (fqnByOptionalParameters o)))
    EmptyString.

Definition possibleTargets (environment : Node) : list Node :=
  filter (is_Test h) (descendants h environment).

Definition testMatches (flt : string) (t : Node) : bool :=
  negb (JS.truthy (Some flt)) ||
  JS.includes
    (JS.nullish (sanitize (Some (fullyQualifiedName h t))) EmptyString)
    flt.

Definition getTarget (environment : Node) (flt : option string) (o : Options)
  : list Node :=
  let onlyTarget := find (isOnly h) (possibleTargets environment) in
  match onlyTarget with
  | Some t => [t]
  | None => filter (testMatches (filterTest flt o)) (possibleTargets environment)
  end.
End Selection.

Section Command.
Variable chalk : Chalk.
Variable P : Platform.
Variable h : Heap.

Definition validateParameters (flt : option string) (o : Options) : M unit :=
  if JS.truthy flt &&
     (JS.truthy (file o) || JS.truthy (describe o) || JS.truthy (test o))
  then
    throw (Utils.newError P
             "You should either use filter by full name or file/describe/test.")
  else ret tt.

(** The two variables the traversal updates. *)
Record Tally : Type := {
  successes : nat;
  failures : list (Node * Error)
}.

(** The callback handed to [environment.forEach]. *)
Definition visit (targets : list Node) (node : Node) (st : Tally) : M Tally :=
  if is_Test h node then
    if includes targets node then
      let tabulation := tabulationForNode (fullyQualifiedName h node) in
      catch
        (emit (Exec node) ;;;
         call match exec P node with
              | Some e => inl e
              | None => inr tt
              end ;;;
         emit (Info [tabulation; Utils.successDescription chalk (name h node)]) ;;;
         ret {| successes := S (successes st); failures := failures st |})
        (fun err =>
           emit (Info [tabulation; Utils.failureDescription chalk P (name h node) None]) ;;;
           ret {| successes := successes st;
                  failures := (failures st ++ [(node, err)])%list |})
    else ret st
  else if is_Entity h node then
    let tabulation := tabulationForNode (fullyQualifiedName h node) in
    if existsb (fun target => includes (descendants h node) target) targets then
      emit (Info [tabulation; name h node]) ;;; ret st
    else ret st
  else ret st.

Definition reportFailure (failure : Node * Error) (_ : unit) : M unit :=
  let (t, err) := failure in
  emit Log ;;;
  emit (LogError
          [Utils.failureDescription chalk P
             (bold chalk (fullyQualifiedName h t)) (Some err)]).

(** The traversal, from [interpret] to the end of [forEach]. *)
Definition runTests (environment : Node) (targets : list Node) : M Tally :=
  emit (Interpret environment) ;;;
  call match interpret P environment with
       | Some e => inl e
       | None => inr tt
       end ;;;
  forEachM (visit targets) (forEach h environment)
    {| successes := 0; failures := [] |}.

(** The command: the module's default export. *)
Definition default (flt : option string) (options : Options) : M unit :=
  catch
    (validateParameters flt options ;;;
     emit (Info ["Running all tests " ++
                 (if JS.truthy flt then
                    "matching " ++
                    Utils.valueDescription chalk (JS.nullish flt EmptyString) ++ " "
                  else EmptyString) ++
                 "on " ++ Utils.valueDescription chalk (project options)]) ;;;
     environment <- Utils.buildEnvironmentForProject P (project options) ;;
     Utils.validateEnvironment chalk P environment (skipValidations options) ;;;
     let targets := getTarget h environment flt options in
     emit (Info ["Running " ++ JS.ofNat (List.length targets) ++ " tests..."]) ;;;
     when (debug P) (emit (Time "Run finished")) ;;;
     st <- runTests environment targets ;;
     emit Log ;;;
     when (debug P) (emit (TimeEnd "Run finished")) ;;;
     forEachM reportFailure (failures st) tt ;;;
     emit (Info [Utils.ENTER;
                 Utils.successDescription chalk
                   (JS.ofNat (successes st) ++ " passing");
                 if (0 <? List.length (failures st))%nat then
                   Utils.failureDescription chalk P
                     (JS.ofNat (List.length (failures st)) ++ " failing") None
                 else EmptyString;
                 Utils.ENTER]) ;;;
     if (0 <? List.length (failures st))%nat then exit 2%Z else ret tt)
    (fun err => Utils.handleError chalk P err ;;; exit 1%Z).

End Command.
End TestCommand.

(* ------------------------------------------------------------------ *)
(** ** The specification's wording, for comparison with the code *)

Module Spec.
Import Wollok Effect TestCommand.

(** A text with its literal quote characters removed. *)
Fixpoint withoutQuotes (s : string) : string :=
  match s with
  | EmptyString => EmptyString
  | String c s' =>
      if Ascii.eqb c (ascii_of_nat 34) then withoutQuotes s'
      else String c (withoutQuotes s')
  end.

(** The values that are present and not empty, in order. *)
Definition nonEmptyValues (values : list (option string)) : list string :=
  flat_map
    (fun v =>
       match v with
       | Some (String c s) => [String c s]
       | _ => []
       end)
    values.

(** "joining non-empty values of options.file, options.describe,
      options.test with ." *)
Definition composite (o : Options) : string :=
  String.concat "." (nonEmptyValues [file o; describe o; test o]).

(** "fall back to this when filter is absent" *)
Definition computedFilter (flt : option string) (o : Options) : string :=
  match flt with
  | Some f => f
  | None => composite o
  end.

(** "every test whose sanitized fully-qualified name contains the
      sanitized filter as a substring", sanitization applying to "both the
      computed filter and each candidate's fully-qualified name". *)
Definition selected (h : Heap) (environment : Node) (flt : option string)
    (o : Options) : list Node :=
  filter
    (fun t =>
       JS.includes (withoutQuotes (fullyQualifiedName h t))
         (withoutQuotes (computedFilter flt o)))
    (possibleTargets h environment).

Definition isSet (v : option string) : bool :=
  match v with
  | Some _ => true
  | None => false
  end.

(** "filter is non-empty AND any of options.file/describe/test is set" *)
Definition rejects (flt : option string) (o : Options) : bool :=
  JS.truthy flt && (isSet (file o) || isSet (describe o) || isSet (test o)).

(** A value that is given and is not the empty string. *)
Definition nonEmpty (v : option string) : Prop :=
  exists s, v = Some s /\ s <> EmptyString.

(** "truncate it at the first occurrence of a known internal marker
      string ...; if the marker is absent, keep the stack unmodified" *)
Definition keptStack (marker s : string) : string :=
  match index 0 marker s with
  | Some n => substring 0 n s
  | None => s
  end.

(** The number of separators in a dotted name. *)
Fixpoint dots (s : string) : nat :=
  match s with
  | EmptyString => 0
  | String c s' => (if Ascii.eqb c JS.dot then 1 else 0) + dots s'
  end.

(** The events by which the command builds, checks or runs the
    environment. *)
Definition touchesEnvironment (ev : Event) : bool :=
  match ev with
  | ReadProject _ | Build | Validate _ | Interpret _ | Exec _ => true
  | _ => false
  end.

(** Why a run stops before its tests (section 7 of the specification). *)
Inductive Abort : Type :=
| ConfigurationError
| BuildError
| ValidationError
| UnexpectedError.

(** The steps before the traversal, read off the collaborators' answers:
    the environment the tests run on, or the reason there is none. *)
Definition preparation (P : Platform) (flt : option string) (o : Options)
    : Abort + Node :=
  if JS.truthy flt &&
     (JS.truthy (file o) || JS.truthy (describe o) || JS.truthy (test o))
  then inl ConfigurationError
  else
    match readProjectFiles P (project o) with
    | inl _ => inl UnexpectedError
    | inr files =>
        match buildEnvironment P files with
        | inl _ => inl BuildError
        | inr environment =>
            let interpreted :=
              match interpret P environment with
              | Some _ => inl UnexpectedError
              | None => inr environment
              end in
            if skipValidations o then interpreted
            else
              match validate P environment with
              | inl _ => inl ValidationError
              | inr problems =>
                  if existsb Utils.is_error problems then inl ValidationError
                  else interpreted
              end
        end
    end.

End Spec.

(* ------------------------------------------------------------------ *)
(** ** A small project, for running the definitions *)

Module Sample.
Import Wollok Effect TestCommand.
Local Open Scope nat_scope.

(** No colours. *)
Definition plain : Chalk :=
  {| red := fun s => s; green := fun s => s; blue := fun s => s;
     yellow := fun s => s; yellowBright := fun s => s;
     bold := fun s => s; italic := fun s => s |}.

(** The environment [0] holds package [pkg] (1) with the suite
    [pkg.suite] (2) and its tests 3 and 4, node 5 being the body of
    test 3, and package [lib] (6) with the class [lib.C] (7). *)
Definition names (n : Node) : string :=
  match n with
  | 1 => "pkg"
  | 2 => "suite"
  | 3 => JS.quote ++ "Foo bar" ++ JS.quote
  | 4 => JS.quote ++ "other" ++ JS.quote
  | 6 => "lib"
  | 7 => "C"
  | _ => EmptyString
  end.

Definition fqns (n : Node) : string :=
  match n with
  | 1 => "pkg"
  | 2 => "pkg.suite"
  | 3 => "pkg.suite." ++ names 3
  | 4 => "pkg.suite." ++ names 4
  | 6 => "lib"
  | 7 => "lib.C"
  | _ => EmptyString
  end.

Definition heap (only : Node -> bool) : Heap :=
  {| is_Test := fun n => (n =? 3) || (n =? 4);
     is_Entity := fun n => negb ((n =? 0) || (n =? 5));
     name := names;
     fullyQualifiedName := fqns;
     isOnly := only;
     descendants := fun n =>
       match n with
       | 0 => [1; 2; 3; 5; 4; 6; 7]
       | 1 => [2; 3; 5; 4]
       | 2 => [3; 5; 4]
       | 3 => [5]
       | 6 => [7]
       | _ => []
       end;
     forEach := fun n =>
       match n with
       | 0 => [0; 1; 2; 3; 5; 4; 6; 7]
       | 1 => [1; 2; 3; 5; 4]
       | 2 => [2; 3; 5; 4]
       | 3 => [3; 5]
       | 6 => [6; 7]
       | _ => [n]
       end |}.

Definition noOnly : Node -> bool := fun _ => false.
Definition onlyOther : Node -> bool := fun n => n =? 4.
Definition bothOnly : Node -> bool := fun n => (n =? 3) || (n =? 4).

Definition boom : Error :=
  {| message := "boom"; stack := Some "Error: boom" |}.

(** Test 4 fails when [failing] is set; building fails when [broken]. *)
Definition platform (failing broken : bool) : Platform :=
  {| WOLLOK_EXTRA_STACK_TRACE_HEADER := "Derived from TypeScript stack";
     debug := false;
     captureStack := fun msg => Some ("Error: " ++ msg);
     readProjectFiles := fun _ =>
       inr [{| file_name := "pkg.wtest"; content := EmptyString |}];
     buildEnvironment := fun _ =>
       if broken then inl {| message := "malformed"; stack := None |}
       else inr 0;
     validate := fun _ => inr [];
     interpret := fun _ => None;
     exec := fun n => if failing && (n =? 4) then Some boom else None |}.

(** A project whose validation reports one problem of level error. *)
Definition invalid : Platform :=
{| WOLLOK_EXTRA_STACK_TRACE_HEADER := "Derived from TypeScript stack";
   debug := false;
   captureStack := fun msg => Some ("Error: " ++ msg);
   readProjectFiles := fun _ =>
     inr [{| file_name := "pkg.wtest"; content := EmptyString |}];
   buildEnvironment := fun _ => inr 0;
   validate := fun _ =>
     inr [{| level := error; code := "nameShouldNotBeKeyword";
             sourceInfo := None |}];
   interpret := fun _ => None;
   exec := fun _ => None |}.

(** A project on which the validator itself throws. *)
Definition crashing : Platform :=
{| WOLLOK_EXTRA_STACK_TRACE_HEADER := "Derived from TypeScript stack";
   debug := false;
   captureStack := fun msg => Some ("Error: " ++ msg);
   readProjectFiles := fun _ =>
     inr [{| file_name := "pkg.wtest"; content := EmptyString |}];
   buildEnvironment := fun _ => inr 0;
   validate := fun _ => inl boom;
   interpret := fun _ => None;
   exec := fun _ => None |}.

(** An error of the interpreter, with frames of the implementation below
    the marker. *)
Definition wrapped : Error :=
{| message := "x";
   stack := Some ("Error: x" ++ String JS.newline
                  (JS.tab ++ "at foo" ++ String JS.newline
                   ("    at bar" ++ String JS.newline
                    ("Derived from TypeScript stack" ++ String JS.newline
                     "    at baz")))) |}.

Definition options (f d t : option string) : Options :=
  {| file := f; describe := d; test := t;
     project := "."; skipValidations := false |}.

Definition noOptions : Options := options None None None.

End Sample.

(* ------------------------------------------------------------------ *)
(** ** What one step of the traversal amounts to *)

Module Traversal.
Import Wollok Effect TestCommand.

Section Traversal.
Variable chalk : Chalk.
Variable P : Platform.
Variable h : Heap.
Variable targets : list Node.

(** The node is a test and one of the targets: the callback runs it. *)
Definition executed (node : Node) : bool :=
  is_Test h node && includes targets node.

(** Some target is among the node's descendants. *)
Definition hasSelectedDescendant (node : Node) : bool :=
  existsb (fun target => includes (descendants h node) target) targets.

(** What the callback does at a node. *)
Definition events (node : Node) : list Event :=
  let tabulation := tabulationForNode (fullyQualifiedName h node) in
  if is_Test h node then
    if includes targets node then
      [Exec node;
       Info [tabulation;
             match exec P node with
             | None => Utils.successDescription chalk (name h node)
             | Some _ => Utils.failureDescription chalk P (name h node) None
             end]]
    else []
  else if is_Entity h node then
    if hasSelectedDescendant node then [Info [tabulation; name h node]]
    else []
  else [].

(** What it leaves in the two counters. *)
Definition count (st : Tally) (node : Node) : Tally :=
  if executed node then
    match exec P node with
    | None => {| successes := S (successes st); failures := failures st |}
    | Some e => {| successes := successes st;
                   failures := (failures st ++ [(node, e)])%list |}
    end
  else st.

End Traversal.
End Traversal.

(* ------------------------------------------------------------------ *)
(** ** [src/utils.ts]: file names and paths *)

Module Files.

(** Node's [path] module: [path.relative] and [path.sep], which depend on
    the platform. *)
Record Path : Type := {
  relative : string -> string -> string;
  sep : ascii
}.

(** [fs.Dirent], of which only the name is read. *)
Record Dirent : Type := {
  name : string
}.

(** [s.endsWith(suffix)]. *)
Definition endsWith (s suffix : string) : bool :=
  let n := String.length s in
  let m := String.length suffix in
  if (m <=? n)%nat then String.eqb (substring (n - m) m s) suffix else false.

Definition imageExtensions : list string := ["png"; "jpg"].

Definition isImageFile (file : Dirent) : bool :=
  existsb (fun ext => endsWith (name file) ext) imageExtensions.

(** [split] answers with at least one part, so part [0] is there. *)
Definition relativeFilePath (path : Path) (project filePath : string) : string :=
  nth 0 (JS.split (relative path project filePath) JS.dot) EmptyString.

Definition getFQN (path : Path) (project filePath : string) : string :=
  JS.replaceAll (relativeFilePath path project filePath)
    (String (sep path) EmptyString) ".".

(** A platform for examples: paths already relative to the project, and
    [/] between their components. *)
Definition posix : Path :=
  {| relative := fun _ filePath => filePath; sep := ascii_of_nat 47 |}.

(** How many times a character occurs in a text. *)
Fixpoint occurrences (c : ascii) (s : string) : nat :=
  match s with
  | EmptyString => 0
  | String c' s' => (if Ascii.eqb c' c then 1 else 0) + occurrences c s'
  end.

End Files.

(* ------------------------------------------------------------------ *)
(** ** Reading a trace *)

Module Observe.
Import Wollok Effect.

(** The tests a trace executes, in order. *)
Definition executedTests (tr : list Event) : list Node :=
  flat_map (fun ev => match ev with Exec n => [n] | _ => [] end) tr.

(** The event sets up the interpreter or runs a test. *)
Definition runsInterpreter (ev : Event) : bool :=
  match ev with
  | Interpret _ | Exec _ => true
  | _ => false
  end.

Definition callsValidator (ev : Event) : bool :=
  match ev with
  | Validate _ => true
  | _ => false
  end.

(** The event is a line of output or a timer. *)
Definition reports (ev : Event) : bool :=
  match ev with
  | Info _ | LogError _ | Debug _ | DebugValue _ | Log | Time _ | TimeEnd _ => true
  | _ => false
  end.

End Observe.

(* ------------------------------------------------------------------ *)
(** ** Properties of the string primitives *)

Import Wollok Effect TestCommand.

Lemma prefix_empty (s : string) : prefix EmptyString s = true.
Proof. destruct s; reflexivity. Qed.

Lemma includes_empty (s : string) : JS.includes s EmptyString = true.
Proof. destruct s; reflexivity. Qed.

(** Replacing every quote by nothing removes the quotes and nothing else. *)
Lemma replaceAll_quote (s : string) :
  JS.replaceAll s JS.quote EmptyString = Spec.withoutQuotes s.
Proof.
  unfold JS.replaceAll.
  induction s as [|c s IH]; [reflexivity|].
  cbn [JS.replaceAll_from Spec.withoutQuotes JS.quote prefix].
  destruct (ascii_dec (ascii_of_nat 34) c) as [<-|Hne].
  - rewrite prefix_empty, Ascii.eqb_refl. exact IH.
  - destruct (Ascii.eqb_spec c (ascii_of_nat 34)) as [->|_]; [congruence|].
    f_equal. exact IH.
Qed.

Lemma sanitize_Some (v : string) :
  sanitize (Some v) = Some (Spec.withoutQuotes v).
Proof. unfold sanitize, JS.optional. now rewrite replaceAll_quote. Qed.

(** No quote is left in a sanitized text. *)
Lemma withoutQuotes_clean (s : string) :
  JS.includes (Spec.withoutQuotes s) JS.quote = false.
Proof.
  induction s as [|c s IH]; [reflexivity|].
  cbn [Spec.withoutQuotes].
  destruct (Ascii.eqb_spec c (ascii_of_nat 34)) as [->|Hne]; [exact IH|].
  cbn [JS.includes JS.quote prefix].
  destruct (ascii_dec (ascii_of_nat 34) c) as [<-|_]; [congruence|].
  exact IH.
Qed.

Lemma split_nonempty (s : string) : JS.split s JS.dot <> [].
Proof.
  destruct s as [|c s]; cbn [JS.split]; [discriminate|].
  destruct (Ascii.eqb c JS.dot); [discriminate|].
  destruct (JS.split s JS.dot); discriminate.
Qed.

(** A dotted name has one segment more than it has dots. *)
Lemma split_length (s : string) :
  List.length (JS.split s JS.dot) = S (Spec.dots s).
Proof.
  induction s as [|c s IH]; [reflexivity|].
  cbn [JS.split Spec.dots].
  destruct (Ascii.eqb c JS.dot); cbn [List.length Nat.add].
  - now rewrite IH.
  - destruct (JS.split s JS.dot) as [|seg rest] eqn:E; cbn [List.length] in *; lia.
Qed.

Lemma repeat_two_spaces (n : nat) : JS.repeat "  " n = JS.repeat " " (2 * n).
Proof.
  induction n as [|n IH]; [reflexivity|].
  replace (2 * S n) with (S (S (2 * n))) by lia.
  cbn [JS.repeat]. now rewrite IH.
Qed.

Lemma repeat_length (n : nat) : String.length (JS.repeat " " n) = n.
Proof. induction n as [|n IH]; [reflexivity|]. cbn. now rewrite IH. Qed.

(* ------------------------------------------------------------------ *)
(** ** Target selection: [getTarget] *)

Section SelectionProperties.
Variable h : Heap.

Lemma possibleTargets_In (environment t : Node) :
  In t (possibleTargets h environment) <->
  In t (descendants h environment) /\ is_Test h t = true.
Proof. unfold possibleTargets. apply filter_In. Qed.

Lemma find_first {A : Type} (f : A -> bool) (l1 l2 : list A) (x : A) :
  (forall y, In y l1 -> f y = false) -> f x = true ->
  find f (l1 ++ x :: l2) = Some x.
Proof.
  intros Hl1 Hx. induction l1 as [|y l1 IH]; cbn.
  - now rewrite Hx.
  - rewrite (Hl1 y (or_introl eq_refl)). apply IH.
    intros z Hz. apply Hl1. now right.
Qed.

Lemma find_exists {A : Type} (f : A -> bool) (l : list A) (x : A) :
  In x l -> f x = true -> exists y, find f l = Some y.
Proof.
  intros Hin Hx. destruct (find f l) as [y|] eqn:E; [now exists y|].
  now rewrite (find_none f l E x Hin) in Hx.
Qed.

(** With an empty filter the truthiness test and the substring test
    agree, so the first is redundant. *)
Lemma testMatches_includes (flt : string) (t : Node) :
  testMatches h flt t =
  JS.includes (Spec.withoutQuotes (fullyQualifiedName h t)) flt.
Proof.
  unfold testMatches. rewrite sanitize_Some. cbn [JS.nullish].
  destruct flt as [|c flt]; cbn [JS.truthy negb orb]; [|reflexivity].
  now rewrite includes_empty.
Qed.

Lemma getTarget_no_only (environment : Node) (flt : option string) (o : Options) :
  (forall t, In t (possibleTargets h environment) -> isOnly h t = false) ->
  getTarget h environment flt o =
  filter (testMatches h (filterTest flt o)) (possibleTargets h environment).
Proof.
  intros Hno. unfold getTarget.
  destruct (find (isOnly h) (possibleTargets h environment)) as [t|] eqn:E;
    [|reflexivity].
  apply find_some in E as [Hin Ht]. rewrite (Hno t Hin) in Ht. discriminate.
Qed.

Lemma getTarget_incl (environment : Node) (flt : option string) (o : Options) (t : Node) :
  In t (getTarget h environment flt o) -> In t (possibleTargets h environment).
Proof.
  unfold getTarget.
  destruct (find (isOnly h) (possibleTargets h environment)) as [u|] eqn:E.
  - intros [<-|[]]. now apply find_some in E.
  - intros Hin. now apply filter_In in Hin.
Qed.

Lemma getTarget_NoDup (environment : Node) (flt : option string) (o : Options) :
  NoDup (descendants h environment) ->
  NoDup (getTarget h environment flt o).
Proof.
  intros Hnd. unfold getTarget.
  destruct (find (isOnly h) (possibleTargets h environment)) as [u|].
  - constructor; [intros []|constructor].
  - unfold possibleTargets. now do 2 apply NoDup_filter.
Qed.

End SelectionProperties.

(** C1. Whenever some test of the environment is flagged "only",
    [getTarget] answers with a one-element list, whose element is a test of
    the environment that carries the flag, and it is the same list for
    every filter and every file/describe/test options. (When exactly one
    test carries the flag, that element is therefore this test.) *)
Theorem C1_only_overrides_filter (h : Heap) (environment : Node) :
  (exists t, In t (descendants h environment) /\
             is_Test h t = true /\ isOnly h t = true) ->
  exists t, In t (descendants h environment) /\
            is_Test h t = true /\ isOnly h t = true /\
            forall flt o, getTarget h environment flt o = [t].
Proof.
  intros (t & Hin & Htest & Honly).
  assert (Hp : In t (possibleTargets h environment))
    by now apply possibleTargets_In.
  destruct (find_exists (isOnly h) _ t Hp Honly) as (u & Hu).
  exists u. pose proof (find_some _ _ Hu) as [Hin' Honly'].
  apply possibleTargets_In in Hin' as [Hd Ht].
  repeat split; try assumption.
  intros flt o. unfold getTarget. now rewrite Hu.
Qed.

Lemma C1_witness :
  exists t, In t (descendants (Sample.heap Sample.onlyOther) 0) /\
            is_Test (Sample.heap Sample.onlyOther) t = true /\
            isOnly (Sample.heap Sample.onlyOther) t = true /\
            forall flt o, getTarget (Sample.heap Sample.onlyOther) 0 flt o = [t].
Proof.
  apply (C1_only_overrides_filter (Sample.heap Sample.onlyOther) 0).
  exists 4. cbn. repeat split; auto 10.
Defined.

(** With a single flagged test the answer is that test. *)
Lemma getTarget_unique_only (h : Heap) (environment t : Node)
    (flt : option string) (o : Options) :
  In t (descendants h environment) -> is_Test h t = true -> isOnly h t = true ->
  (forall u, In u (descendants h environment) -> is_Test h u = true ->
             isOnly h u = true -> u = t) ->
  getTarget h environment flt o = [t].
Proof.
  intros Hin Ht Ho Huniq.
  assert (Hp : In t (possibleTargets h environment))
    by now apply possibleTargets_In.
  destruct (find_exists (isOnly h) _ t Hp Ho) as (u & Hu).
  unfold getTarget. rewrite Hu.
  pose proof (find_some _ _ Hu) as [Hin' Honly'].
  apply possibleTargets_In in Hin' as [Hd Htu].
  now rewrite (Huniq u Hd Htu Honly').
Qed.

(** C10. When the tests among the environment's descendants, in the
    order of [descendants], are [before ++ t :: after] with no flagged
    test in [before] and [t] flagged, [getTarget] answers [[t]] for every
    filter and options: the flagged tests of [after] are not part of the
    answer, and neither the filter nor the options are looked at. *)
Theorem C10_first_only_wins (h : Heap) (environment : Node)
    (before after : list Node) (t : Node) :
  filter (is_Test h) (descendants h environment) = (before ++ t :: after)%list ->
  (forall u, In u before -> isOnly h u = false) ->
  isOnly h t = true ->
  forall flt o,
    getTarget h environment flt o = [t] /\
    forall u, In u after -> u <> t -> ~ In u (getTarget h environment flt o).
Proof.
  intros Hsplit Hbefore Ht flt o.
  assert (E : getTarget h environment flt o = [t]).
  { unfold getTarget, possibleTargets. rewrite Hsplit. now rewrite find_first. }
  split; [exact E|].
  intros u _ Hne. rewrite E. intros [->|[]]. now apply Hne.
Qed.

Lemma C10_witness :
  getTarget (Sample.heap Sample.bothOnly) 0 (Some "other") Sample.noOptions = [3] /\
  forall u, In u [4] -> u <> 3 ->
            ~ In u (getTarget (Sample.heap Sample.bothOnly) 0 (Some "other")
                      Sample.noOptions).
Proof.
  apply (C10_first_only_wins (Sample.heap Sample.bothOnly) 0 [] [4] 3).
  - reflexivity.
  - intros u [].
  - reflexivity.
Defined.

(** The composite of the options, as the code computes it and as the
    specification words it. *)
Lemma fqnByOptionalParameters_composite (o : Options) :
  fqnByOptionalParameters o = Spec.composite o.
Proof.
  unfold fqnByOptionalParameters, Spec.composite, JS.join.
  destruct o as [[[|? ?]|] [[|? ?]|] [[|? ?]|] ? ?]; reflexivity.
Qed.

Lemma filterTest_absent (o : Options) :
  filterTest None o = Spec.composite o.
Proof.
  unfold filterTest. cbn. apply fqnByOptionalParameters_composite.
Qed.

Lemma filterTest_present (f : string) (o : Options) :
  filterTest (Some f) o = Spec.withoutQuotes f.
Proof. unfold filterTest. now rewrite sanitize_Some. Qed.

(** C3, as stated, fails: with no flagged test, no free-text filter and
    the option [test] given with its quotes, the code compares the quoted
    option with the unquoted names and selects nothing, where the claim
    selects test 3. *)
Lemma C3_counterexample :
  let h := Sample.heap Sample.noOnly in
  let o := Sample.options None None (Some (JS.quote ++ "Foo bar" ++ JS.quote)) in
  (forall t, In t (possibleTargets h 0) -> isOnly h t = false) /\
  getTarget h 0 None o = [] /\
  Spec.selected h 0 None o = [3] /\
  getTarget h 0 None o <> Spec.selected h 0 None o.
Proof.
  cbv zeta. repeat split; try reflexivity. discriminate.
Qed.

(** C3, amended. In an environment with no flagged test, the selected
    tests are exactly the tests whose fully-qualified name, with its
    quotes removed, contains the effective filter as a substring
    (character for character, hence case-sensitively); the effective
    filter is the free-text filter with its quotes removed when one is
    given, and otherwise the composite of the options as given, quotes
    included. An empty effective filter selects every test. *)
Theorem C3_selection_by_substring (h : Heap) (environment : Node)
    (flt : option string) (o : Options) :
  (forall t, In t (possibleTargets h environment) -> isOnly h t = false) ->
  let effective :=
    match flt with
    | Some f => Spec.withoutQuotes f
    | None => Spec.composite o
    end in
  getTarget h environment flt o =
    filter
      (fun t => JS.includes (Spec.withoutQuotes (fullyQualifiedName h t)) effective)
      (possibleTargets h environment) /\
  (effective = EmptyString ->
   getTarget h environment flt o = possibleTargets h environment).
Proof.
  intros Hno effective.
  assert (Heff : filterTest flt o = effective).
  { destruct flt as [f|]; [apply filterTest_present|apply filterTest_absent]. }
  assert (E : getTarget h environment flt o =
              filter
                (fun t => JS.includes (Spec.withoutQuotes (fullyQualifiedName h t))
                            effective)
                (possibleTargets h environment)).
  { rewrite (getTarget_no_only h environment flt o Hno), Heff.
    apply filter_ext. intros t. apply testMatches_includes. }
  split; [exact E|].
  intros Hempty. rewrite E, Hempty.
  apply forallb_filter_id. apply forallb_forall.
  intros t _. apply includes_empty.
Qed.

Lemma C3_witness :
  let h := Sample.heap Sample.noOnly in
  let flt := Some (JS.quote ++ "Foo" ++ JS.quote) in
  getTarget h 0 flt Sample.noOptions =
    filter (fun t => JS.includes (Spec.withoutQuotes (fullyQualifiedName h t)) "Foo")
      (possibleTargets h 0) /\
  ("Foo" = EmptyString ->
   getTarget h 0 flt Sample.noOptions = possibleTargets h 0).
Proof.
  apply (C3_selection_by_substring (Sample.heap Sample.noOnly) 0
           (Some (JS.quote ++ "Foo" ++ JS.quote)) Sample.noOptions).
  intros t _. reflexivity.
Defined.

(** Matching tells upper case from lower case, and a quoted free-text
    filter selects what the unquoted one selects. *)
Example matching_case_and_quotes :
  let h := Sample.heap Sample.noOnly in
  getTarget h 0 (Some "Foo") Sample.noOptions = [3] /\
  getTarget h 0 (Some "foo") Sample.noOptions = [] /\
  getTarget h 0 (Some (JS.quote ++ "Foo" ++ JS.quote)) Sample.noOptions = [3].
Proof. repeat split. Qed.

(** C5. Without a free-text filter the effective filter is the non-empty
    values among file, describe and test, in that order, joined with a
    dot: "a.b" for file "a" and describe "b". With a free-text filter the
    effective filter is that filter (rid of its quotes), whatever the
    three options hold. *)
Theorem C5_effective_filter :
  (forall o, filterTest None o =
             String.concat "." (Spec.nonEmptyValues [file o; describe o; test o])) /\
  filterTest None (Sample.options (Some "a") (Some "b") None) = "a.b" /\
  (forall f o, filterTest (Some f) o = Spec.withoutQuotes f) /\
  (forall f o o', filterTest (Some f) o = filterTest (Some f) o').
Proof.
  split; [|split; [|split]].
  - intros o. apply filterTest_absent.
  - reflexivity.
  - intros f o. apply filterTest_present.
  - intros f o o'. now rewrite !filterTest_present.
Qed.

(* ------------------------------------------------------------------ *)
(** ** The effect monad *)

Lemma outcome_bind {A B : Type} (m : M A) (k : A -> M B) :
  outcome (bind m k) =
  match outcome m with
  | Ret a => outcome (k a)
  | Throw e => Throw e
  | Halt c => Halt c
  end.
Proof.
  destruct m as [t [a|e|c]]; cbn; [|reflexivity|reflexivity].
  now destruct (k a).
Qed.

Lemma trace_bind {A B : Type} (m : M A) (k : A -> M B) :
  trace (bind m k) =
  match outcome m with
  | Ret a => (trace m ++ trace (k a))%list
  | _ => trace m
  end.
Proof.
  destruct m as [t [a|e|c]]; cbn; [|reflexivity|reflexivity].
  now destruct (k a).
Qed.

Lemma outcome_catch {A : Type} (m : M A) (handler : Error -> M A) :
  outcome (catch m handler) =
  match outcome m with
  | Throw e => outcome (handler e)
  | o => o
  end.
Proof.
  destruct m as [t [a|e|c]]; cbn; try reflexivity.
  now destruct (handler e).
Qed.

Lemma trace_catch {A : Type} (m : M A) (handler : Error -> M A) :
  trace (catch m handler) =
  match outcome m with
  | Throw e => (trace m ++ trace (handler e))%list
  | _ => trace m
  end.
Proof.
  destruct m as [t [a|e|c]]; cbn; try reflexivity.
  now destruct (handler e).
Qed.

(** A loop whose body always returns runs to its end. *)
Lemma forEachM_returns {A S : Type} (f : A -> S -> M S)
    (ev : A -> list Event) (step : S -> A -> S) (l : list A) (s : S) :
  (forall x s', f x s' = (ev x, Ret (step s' x))) ->
  forEachM f l s = (flat_map ev l, Ret (fold_left step l s)).
Proof.
  intros Hf. revert s.
  induction l as [|x l IH]; intros s; cbn [forEachM flat_map fold_left].
  - reflexivity.
  - rewrite Hf. unfold bind. now rewrite IH.
Qed.

(* ------------------------------------------------------------------ *)
(** ** Parameter validation: [validateParameters] *)

Lemma truthy_nonEmpty (v : option string) :
  JS.truthy v = true <-> Spec.nonEmpty v.
Proof.
  unfold Spec.nonEmpty. split.
  - destruct v as [[|c s]|]; cbn; try discriminate.
    intros _. exists (String c s). split; [reflexivity|discriminate].
  - intros (s & -> & Hs). destruct s; [congruence|reflexivity].
Qed.

Lemma validateParameters_throws (P : Platform) (flt : option string) (o : Options) :
  (exists e, outcome (validateParameters P flt o) = Throw e) <->
  JS.truthy flt &&
    (JS.truthy (file o) || JS.truthy (describe o) || JS.truthy (test o)) = true.
Proof.
  unfold validateParameters.
  destruct (JS.truthy flt &&
            (JS.truthy (file o) || JS.truthy (describe o) || JS.truthy (test o))).
  - split; [reflexivity|]. intros _. eexists. reflexivity.
  - split; [|discriminate]. intros (e & He). discriminate He.
Qed.

(** C4, as stated, fails: with filter "x" and the option [file] set to the
    empty string, an option is set and the filter is not empty, and yet
    the code raises nothing and goes on to read the project. *)
Lemma C4_counterexample :
  let P := Sample.platform false false in
  let o := Sample.options (Some EmptyString) None None in
  Spec.rejects (Some "x") o = true /\
  outcome (validateParameters P (Some "x") o) = Ret tt /\
  In (ReadProject ".")
     (trace (default Sample.plain P (Sample.heap Sample.noOnly) (Some "x") o)).
Proof.
  cbv zeta. split; [reflexivity|]. split; [reflexivity|].
  vm_compute. auto.
Qed.

(** C4, amended. [validateParameters] raises an error if and only if the
    free-text filter is given and not empty and at least one of file,
    describe and test is given and not empty. When it does, the command
    has read no file, built, validated and interpreted no environment and
    run no test, and the process ends with status 1. *)
Theorem C4_filter_excludes_options (chalk : Chalk) (P : Platform) (h : Heap)
    (flt : option string) (o : Options) :
  ((exists e, outcome (validateParameters P flt o) = Throw e) <->
   Spec.nonEmpty flt /\
   (Spec.nonEmpty (file o) \/ Spec.nonEmpty (describe o) \/ Spec.nonEmpty (test o))) /\
  ((exists e, outcome (validateParameters P flt o) = Throw e) ->
   existsb Spec.touchesEnvironment (trace (default chalk P h flt o)) = false /\
   exitCode (default chalk P h flt o) = 1%Z).
Proof.
  split.
  - rewrite validateParameters_throws, andb_true_iff, !orb_true_iff,
      !truthy_nonEmpty. tauto.
  - intros Hthrow. apply validateParameters_throws in Hthrow.
    unfold default, validateParameters. rewrite Hthrow.
    split; reflexivity.
Qed.

Lemma C4_witness :
  existsb Spec.touchesEnvironment
    (trace (default Sample.plain (Sample.platform false false)
              (Sample.heap Sample.noOnly) (Some "x")
              (Sample.options (Some "a") None None))) = false /\
  exitCode (default Sample.plain (Sample.platform false false)
              (Sample.heap Sample.noOnly) (Some "x")
              (Sample.options (Some "a") None None)) = 1%Z.
Proof.
  apply (C4_filter_excludes_options Sample.plain (Sample.platform false false)
           (Sample.heap Sample.noOnly) (Some "x")
           (Sample.options (Some "a") None None)).
  eexists. reflexivity.
Defined.

(* ------------------------------------------------------------------ *)
(** ** The traversal: the callback handed to [environment.forEach] *)

Lemma includes_In (nodes : list Node) (node : Node) :
  includes nodes node = true <-> In node nodes.
Proof.
  unfold includes. rewrite existsb_exists. split.
  - intros (x & Hin & Heq). apply Nat.eqb_eq in Heq. now subst.
  - intros Hin. exists node. split; [exact Hin|apply Nat.eqb_refl].
Qed.

Section TraversalProperties.
Variable chalk : Chalk.
Variable P : Platform.
Variable h : Heap.
Variable targets : list Node.

Local Abbreviation events := (Traversal.events chalk P h targets).
Local Abbreviation count := (Traversal.count P h targets).
Local Abbreviation executed := (Traversal.executed h targets).

(** The callback always returns: what a test throws is caught in it. *)
Lemma visit_returns (node : Node) (st : Tally) :
  visit chalk P h targets node st = (events node, Ret (count st node)).
Proof.
  unfold visit, events, count, Traversal.events, Traversal.count,
    Traversal.executed, Traversal.hasSelectedDescendant.
  destruct (is_Test h node); cbn [andb].
  - destruct (includes targets node); [|reflexivity].
    destruct (exec P node); reflexivity.
  - destruct (is_Entity h node); [|reflexivity].
    destruct (existsb _ targets); reflexivity.
Qed.

Lemma traversal_returns (nodes : list Node) (st : Tally) :
  forEachM (visit chalk P h targets) nodes st =
  (flat_map events nodes, Ret (fold_left count nodes st)).
Proof. apply forEachM_returns. intros x s'. apply visit_returns. Qed.

Lemma executed_iff (node : Node) :
  executed node = true <-> is_Test h node = true /\ In node targets.
Proof.
  unfold executed, Traversal.executed.
  now rewrite andb_true_iff, includes_In.
Qed.

Lemma events_Exec (node t : Node) :
  In (Exec t) (events node) <-> t = node /\ executed node = true.
Proof.
  unfold events, Traversal.events, executed, Traversal.executed.
  destruct (is_Test h node); cbn [andb].
  - destruct (includes targets node); cbn.
    + split.
      * intros [E|[E|[]]]; [|discriminate E]. injection E as ->. now split.
      * intros [-> _]. now left.
    + split; [intros []|intros [_ E]; discriminate E].
  - split; [|intros [_ E]; discriminate E].
    destruct (is_Entity h node); [|intros []].
    destruct (Traversal.hasSelectedDescendant h targets node); cbn;
      [intros [E|[]]; discriminate E|intros []].
Qed.

Lemma events_Info (node : Node) (args : list string) :
  In (Info args) (events node) ->
  exists text, args = [tabulationForNode (fullyQualifiedName h node); text].
Proof.
  unfold events, Traversal.events.
  destruct (is_Test h node).
  - destruct (includes targets node); cbn; [|intros []].
    intros [E|[E|[]]]; [discriminate E|]. injection E as <-. eauto.
  - destruct (is_Entity h node); [|intros []].
    destruct (Traversal.hasSelectedDescendant h targets node); cbn; [|intros []].
    intros [E|[]]. injection E as <-. eauto.
Qed.

(** The counters after a run over [nodes]. *)
Lemma count_total (nodes : list Node) (st : Tally) :
  successes (fold_left count nodes st) +
  List.length (failures (fold_left count nodes st)) =
  successes st + List.length (failures st) +
  List.length (filter executed nodes).
Proof.
  revert st. induction nodes as [|n nodes IH]; intros st; cbn [fold_left filter].
  - cbn. lia.
  - rewrite IH. unfold count, Traversal.count.
    fold executed. destruct (executed n); cbn [List.length]; [|lia].
    destruct (exec P n); cbn [successes failures]; [|lia].
    rewrite length_app. cbn. lia.
Qed.

Lemma count_failures (nodes : list Node) (st : Tally) (t : Node) (e : Error) :
  In (t, e) (failures (fold_left count nodes st)) <->
  In (t, e) (failures st) \/
  (In t nodes /\ executed t = true /\ exec P t = Some e).
Proof using P h targets.
  revert st. induction nodes as [|n nodes IH]; intros st; cbn [fold_left In].
  - tauto.
  - rewrite IH. unfold count at 1, Traversal.count. fold executed.
    destruct (executed n) eqn:En.
    + destruct (exec P n) as [e'|] eqn:Ee; cbn [failures].
      * rewrite in_app_iff. cbn [In]. split.
        -- intros [[H|[H|[]]]|H]; [tauto| |tauto].
           injection H as <- <-. tauto.
        -- intros [H|[[->|H] H']]; [tauto| |tauto].
           destruct H' as [_ H']. rewrite Ee in H'. injection H' as ->. tauto.
      * split; [tauto|].
        intros [H|[[->|H] H']]; [tauto| |tauto].
        destruct H' as [_ H']. rewrite Ee in H'. discriminate H'.
    + split; [tauto|].
      intros [H|[[->|H] H']]; [tauto| |tauto].
      destruct H' as [H' _]. rewrite En in H'. discriminate H'.
Qed.

(** Visiting every node once runs every target once. *)
Lemma executed_once (nodes : list Node) :
  NoDup nodes -> NoDup targets ->
  (forall t, In t targets -> is_Test h t = true /\ In t nodes) ->
  List.length (filter executed nodes) = List.length targets.
Proof using h targets.
  intros Hnodes Htargets Hsub.
  apply Permutation_length, NoDup_Permutation;
    [now apply NoDup_filter|assumption|].
  intros x. rewrite filter_In, executed_iff. split.
  - tauto.
  - intros Hx. destruct (Hsub x Hx). tauto.
Qed.

End TraversalProperties.

Lemma hasSelectedDescendant_iff (h : Heap) (targets : list Node) (node : Node) :
  Traversal.hasSelectedDescendant h targets node = true <->
  exists t, In t targets /\ In t (descendants h node).
Proof.
  unfold Traversal.hasSelectedDescendant. rewrite existsb_exists.
  split; intros (t & Ht & Hd); exists t; split; try assumption;
    now apply includes_In.
Qed.

(** C6. When the traversal visits no node twice and the targets are
    distinct tests among the visited nodes, the traversal runs to its end
    whatever the tests throw, every target is executed, the recorded
    failures are exactly the targets whose execution threw, each with what
    it threw, and the successes and the failures add up to the number of
    targets. *)
Theorem C6_failures_do_not_abort (chalk : Chalk) (P : Platform) (h : Heap)
    (environment : Node) (targets : list Node) :
  NoDup (forEach h environment) ->
  NoDup targets ->
  (forall t, In t targets ->
             is_Test h t = true /\ In t (forEach h environment)) ->
  let run :=
    forEachM (visit chalk P h targets) (forEach h environment)
      {| successes := 0; failures := [] |} in
  exists st,
    outcome run = Ret st /\
    (forall t, In t targets -> In (Exec t) (trace run)) /\
    (forall t e, In (t, e) (failures st) <-> In t targets /\ exec P t = Some e) /\
    successes st + List.length (failures st) = List.length targets.
Proof.
  intros Hnodes Htargets Hsub run. subst run.
  rewrite traversal_returns. eexists. split; [reflexivity|].
  cbn [trace fst]. split; [|split].
  - intros t Ht. apply in_flat_map. exists t.
    destruct (Hsub t Ht) as [Htest Hin]. split; [exact Hin|].
    apply events_Exec. split; [reflexivity|]. now apply executed_iff.
  - intros t e. rewrite count_failures, executed_iff. cbn [failures In].
    split.
    + intros [[]|(_ & (_ & Ht) & He)]. now split.
    + intros [Ht He]. right. destruct (Hsub t Ht). tauto.
  - rewrite count_total. cbn [successes failures List.length].
    now rewrite (executed_once h targets _ Hnodes Htargets Hsub).
Qed.

Lemma C6_witness :
  let P := Sample.platform true false in
  let h := Sample.heap Sample.noOnly in
  let run :=
    forEachM (visit Sample.plain P h [3; 4]) (forEach h 0)
      {| successes := 0; failures := [] |} in
  exists st,
    outcome run = Ret st /\
    (forall t, In t [3; 4] -> In (Exec t) (trace run)) /\
    (forall t e, In (t, e) (failures st) <-> In t [3; 4] /\ exec P t = Some e) /\
    successes st + List.length (failures st) = List.length [3; 4].
Proof.
  apply (C6_failures_do_not_abort Sample.plain (Sample.platform true false)
           (Sample.heap Sample.noOnly) 0 [3; 4]).
  - repeat constructor; cbn; intuition discriminate.
  - repeat constructor; cbn; intuition discriminate.
  - intros t [<-|[<-|[]]]; cbn; auto 10.
Defined.

(** The targets [getTarget] selects meet the assumptions of C6 as soon as
    [descendants] lists no node twice and [forEach] visits every
    descendant. *)
Lemma getTarget_visited (h : Heap) (environment : Node)
    (flt : option string) (o : Options) :
  (forall n, In n (descendants h environment) -> In n (forEach h environment)) ->
  forall t, In t (getTarget h environment flt o) ->
            is_Test h t = true /\ In t (forEach h environment).
Proof.
  intros Hvisit t Ht. apply getTarget_incl, possibleTargets_In in Ht.
  destruct Ht as [Hd Htest]. split; [exact Htest|now apply Hvisit].
Qed.

(** C8. Every line the traversal reports for a node starts with an
    indentation of two spaces per level, the level being the number of
    dot-separated segments of the node's fully-qualified name minus one,
    that is the number of its dots; a name without a dot is not
    indented. *)
Theorem C8_indentation_by_depth (chalk : Chalk) (P : Platform) (h : Heap)
    (targets nodes : list Node) (st : Tally) (args : list string) :
  In (Info args) (trace (forEachM (visit chalk P h targets) nodes st)) ->
  exists node text,
    In node nodes /\
    let segments := List.length (JS.split (fullyQualifiedName h node) JS.dot) in
    let level := segments - 1 in
    args = [JS.repeat " " (2 * level); text] /\
    segments = S (Spec.dots (fullyQualifiedName h node)) /\
    (level = 0 -> args = [EmptyString; text]).
Proof.
  rewrite traversal_returns. cbn [trace fst]. intros Hin.
  apply in_flat_map in Hin as (node & Hnode & Hin).
  apply events_Info in Hin as (text & ->).
  exists node, text. split; [exact Hnode|]. cbv zeta.
  unfold tabulationForNode. rewrite repeat_two_spaces.
  split; [reflexivity|]. split; [apply split_length|].
  intros ->. reflexivity.
Qed.

Lemma C8_witness :
  exists node text,
    In node [0; 1; 2; 3; 5; 4; 6; 7] /\
    let segments :=
      List.length
        (JS.split (fullyQualifiedName (Sample.heap Sample.noOnly) node) JS.dot) in
    let level := segments - 1 in
    [JS.repeat "  " 2; Utils.successDescription Sample.plain (Sample.names 3)] =
      [JS.repeat " " (2 * level); text] /\
    segments = S (Spec.dots (fullyQualifiedName (Sample.heap Sample.noOnly) node)) /\
    (level = 0 ->
     [JS.repeat "  " 2; Utils.successDescription Sample.plain (Sample.names 3)] =
       [EmptyString; text]).
Proof.
  apply (C8_indentation_by_depth Sample.plain (Sample.platform false false)
           (Sample.heap Sample.noOnly) [3; 4] [0; 1; 2; 3; 5; 4; 6; 7]
           {| successes := 0; failures := [] |}).
  vm_compute. auto 10.
Defined.

(** C9. At a node that is not a test the callback runs nothing and leaves
    the counters as they are. If the node is an entity, it reports the
    node's header, and nothing else, exactly when some target is among the
    node's descendants, and reports nothing exactly when none is; if the
    node is not an entity it reports nothing. The traversal is one pass:
    its output is what the callback reports at each visited node, in the
    order of the visit. *)
Theorem C9_headers_of_selected_containers (chalk : Chalk) (P : Platform)
    (h : Heap) (targets : list Node) (node : Node) (st : Tally) :
  is_Test h node = false ->
  let step := visit chalk P h targets node st in
  let header :=
    Info [tabulationForNode (fullyQualifiedName h node); name h node] in
  let selectedBelow := exists t, In t targets /\ In t (descendants h node) in
  outcome step = Ret st /\
  (forall t, ~ In (Exec t) (trace step)) /\
  (is_Entity h node = true ->
   (trace step = [header] <-> selectedBelow) /\
   (trace step = [] <-> ~ selectedBelow)) /\
  (is_Entity h node = false -> trace step = []) /\
  (forall nodes st',
     trace (forEachM (visit chalk P h targets) nodes st') =
     flat_map (fun n => trace (visit chalk P h targets n st')) nodes).
Proof.
  intros Htest step header selectedBelow. subst step header selectedBelow.
  rewrite visit_returns. cbn [outcome trace fst snd].
  split; [|split; [|split; [|split]]].
  - unfold Traversal.count, Traversal.executed. now rewrite Htest.
  - intros t Hin. apply events_Exec in Hin as [_ Hex].
    apply executed_iff in Hex as [Hex _]. congruence.
  - intros Hentity. rewrite <- hasSelectedDescendant_iff.
    unfold Traversal.events. rewrite Htest, Hentity.
    destruct (Traversal.hasSelectedDescendant h targets node).
    + split; split; intros H; try reflexivity; try discriminate H.
      now contradiction H.
    + split; split; intros H; try reflexivity; try discriminate H.
      intros H'. discriminate H'.
  - intros Hentity. unfold Traversal.events. now rewrite Htest, Hentity.
  - intros nodes st'. rewrite traversal_returns. cbn [trace fst].
    apply flat_map_ext. intros n. now rewrite visit_returns.
Qed.

Lemma C9_witness :
  let h := Sample.heap Sample.noOnly in
  let step := visit Sample.plain (Sample.platform false false) h [3] 6
                {| successes := 0; failures := [] |} in
  let header := Info [tabulationForNode (fullyQualifiedName h 6); name h 6] in
  let selectedBelow := exists t, In t [3] /\ In t (descendants h 6) in
  outcome step = Ret {| successes := 0; failures := [] |} /\
  (forall t, ~ In (Exec t) (trace step)) /\
  (is_Entity h 6 = true ->
   (trace step = [header] <-> selectedBelow) /\
   (trace step = [] <-> ~ selectedBelow)) /\
  (is_Entity h 6 = false -> trace step = []) /\
  (forall nodes st',
     trace (forEachM (visit Sample.plain (Sample.platform false false) h [3])
              nodes st') =
     flat_map
       (fun n => trace (visit Sample.plain (Sample.platform false false) h [3] n st'))
       nodes).
Proof.
  apply (C9_headers_of_selected_containers Sample.plain
           (Sample.platform false false) (Sample.heap Sample.noOnly) [3] 6
           {| successes := 0; failures := [] |}).
  reflexivity.
Defined.

(* ------------------------------------------------------------------ *)
(** ** The command and its exit status *)

Section CommandProperties.
Variable chalk : Chalk.
Variable P : Platform.
Variable h : Heap.

Lemma outcome_when (b : bool) (ev : Event) : outcome (when b (emit ev)) = Ret tt.
Proof using Type. now destruct b. Qed.

Lemma buildEnvironmentForProject_outcome (project : string) :
  outcome (Utils.buildEnvironmentForProject P project) =
  match readProjectFiles P project with
  | inl e => Throw e
  | inr files =>
      match buildEnvironment P files with
      | inl e => Throw e
      | inr environment => Ret environment
      end
  end.
Proof using Type.
  unfold Utils.buildEnvironmentForProject.
  destruct (debug P), (readProjectFiles P project) as [e|files]; cbn;
    try reflexivity;
    destruct (buildEnvironment P files); reflexivity.
Qed.

(** Validation lets the run go on when it is skipped or when it finds no
    problem of level error, and throws otherwise. *)
Lemma validateEnvironment_outcome (environment : Node) (skip : bool) :
  (if skip then true
   else match validate P environment with
        | inl _ => false
        | inr problems => negb (existsb Utils.is_error problems)
        end) = true /\
  outcome (Utils.validateEnvironment chalk P environment skip) = Ret tt
  \/
  (if skip then true
   else match validate P environment with
        | inl _ => false
        | inr problems => negb (existsb Utils.is_error problems)
        end) = false /\
  exists e, outcome (Utils.validateEnvironment chalk P environment skip) = Throw e.
Proof using Type.
  unfold Utils.validateEnvironment.
  destruct skip; cbn [negb]; [left; now split|].
  rewrite outcome_catch, outcome_bind. cbn [outcome emit snd].
  rewrite outcome_bind.
  destruct (validate P environment) as [e|problems]; cbn [call outcome throw ret snd].
  - right. split; [reflexivity|]. eexists. reflexivity.
  - rewrite outcome_bind.
    rewrite (forEachM_returns _
               (fun problem => [Info [Utils.problemDescription chalk problem]])
               (fun _ _ => tt)) by reflexivity.
    cbn [outcome snd].
    destruct problems as [|p problems]; [left; now split|].
    cbn [List.length Nat.eqb].
    destruct (existsb Utils.is_error (p :: problems)); cbn [negb].
    + right. split; [reflexivity|]. eexists. reflexivity.
    + left. now split.
Qed.

Lemma runTests_outcome (environment : Node) (targets : list Node) :
  outcome (runTests chalk P h environment targets) =
  match interpret P environment with
  | Some e => Throw e
  | None =>
      Ret (fold_left (Traversal.count P h targets) (forEach h environment)
             {| successes := 0; failures := [] |})
  end.
Proof using Type.
  unfold runTests. rewrite outcome_bind. cbn [outcome emit snd].
  rewrite outcome_bind.
  destruct (interpret P environment); cbn [call outcome throw ret snd];
    [reflexivity|].
  now rewrite traversal_returns.
Qed.

Lemma reportFailures_outcome (fs : list (Node * Error)) :
  outcome (forEachM (reportFailure chalk P h) fs tt) = Ret tt.
Proof using Type.
  rewrite (forEachM_returns _
             (fun failure =>
                [Log;
                 LogError
                   [Utils.failureDescription chalk P
                      (bold chalk (fullyQualifiedName h (fst failure)))
                      (Some (snd failure))]])
             (fun _ _ => tt)).
  - cbn [outcome snd]. now destruct (fold_left _ fs tt).
  - intros [t e] []. reflexivity.
Qed.

(** The outcome of the command, read off the collaborators' answers. *)
Lemma default_outcome (flt : option string) (o : Options) :
  outcome (default chalk P h flt o) =
  match Spec.preparation P flt o with
  | inl _ => Halt 1%Z
  | inr environment =>
      let st :=
        fold_left (Traversal.count P h (getTarget h environment flt o))
          (forEach h environment) {| successes := 0; failures := [] |} in
      if (0 <? List.length (failures st))%nat then Halt 2%Z else Ret tt
  end.
Proof using Type.
  unfold default, Spec.preparation.
  rewrite outcome_catch, outcome_bind.
  unfold validateParameters at 1.
  destruct (JS.truthy flt &&
            (JS.truthy (file o) || JS.truthy (describe o) || JS.truthy (test o)));
    [reflexivity|].
  cbn [outcome ret snd]. rewrite outcome_bind. cbn [outcome emit snd].
  rewrite outcome_bind, buildEnvironmentForProject_outcome.
  destruct (readProjectFiles P (project o)) as [e|files]; [reflexivity|].
  destruct (buildEnvironment P files) as [e|environment]; [reflexivity|].
  rewrite outcome_bind.
  destruct (validateEnvironment_outcome environment (skipValidations o))
    as [[Hok ->]|[Hko (e & ->)]].
  - assert (Hprep :
      (if skipValidations o
       then match interpret P environment with
            | Some _ => inl Spec.UnexpectedError
            | None => inr environment
            end
       else match validate P environment with
            | inl _ => inl Spec.ValidationError
            | inr problems =>
                if existsb Utils.is_error problems
                then inl Spec.ValidationError
                else match interpret P environment with
                     | Some _ => inl Spec.UnexpectedError
                     | None => inr environment
                     end
            end) =
      match interpret P environment with
      | Some _ => inl Spec.UnexpectedError
      | None => inr environment
      end).
    { destruct (skipValidations o); [reflexivity|].
      destruct (validate P environment) as [e|problems]; [discriminate Hok|].
      destruct (existsb Utils.is_error problems); [discriminate Hok|reflexivity]. }
    rewrite Hprep. clear Hprep Hok.
    rewrite outcome_bind. cbn [outcome emit snd].
    rewrite outcome_bind, outcome_when.
    rewrite outcome_bind, runTests_outcome.
    destruct (interpret P environment) as [e|]; [reflexivity|].
    rewrite outcome_bind. cbn [outcome emit snd].
    rewrite outcome_bind, outcome_when.
    rewrite outcome_bind, reportFailures_outcome.
    rewrite outcome_bind. cbn [outcome emit snd].
    cbv zeta.
    destruct (0 <? List.length _)%nat; reflexivity.
  - destruct (skipValidations o); [discriminate Hko|].
    destruct (validate P environment) as [e'|problems]; [reflexivity|].
    destruct (existsb Utils.is_error problems); [reflexivity|discriminate Hko].
Qed.

(** A failure is recorded exactly when a visited target throws. *)
Lemma failures_empty (targets nodes : list Node) :
  (forall t, In t targets -> exec P t = None) ->
  failures (fold_left (Traversal.count P h targets) nodes
              {| successes := 0; failures := [] |}) = [].
Proof using Type.
  intros Hpass.
  destruct (failures _) as [|[t e] fs] eqn:E; [reflexivity|].
  assert (Hin : In (t, e)
                  (failures (fold_left (Traversal.count P h targets) nodes
                               {| successes := 0; failures := [] |})))
    by (rewrite E; now left).
  apply (count_failures P h targets) in Hin as [[]|(_ & Hex & He)].
  apply executed_iff in Hex as [_ Ht].
  rewrite (Hpass t Ht) in He. discriminate He.
Qed.

Lemma failures_nonempty (targets nodes : list Node) (t : Node) :
  In t targets -> is_Test h t = true -> In t nodes -> exec P t <> None ->
  (0 <? List.length
          (failures (fold_left (Traversal.count P h targets) nodes
                       {| successes := 0; failures := [] |})))%nat = true.
Proof using Type.
  intros Ht Htest Hin Hfail.
  destruct (exec P t) as [e|] eqn:He; [|congruence].
  assert (Hrec : In (t, e)
                   (failures (fold_left (Traversal.count P h targets) nodes
                                {| successes := 0; failures := [] |}))).
  { apply (count_failures P h targets). right.
    repeat split; try assumption. now apply executed_iff. }
  destruct (failures _); [destruct Hrec|reflexivity].
Qed.

End CommandProperties.

(** C7. The process ends with status 1 when the run stops before its
    tests (rejected parameters, unreadable project, failed build, failed
    validation, interpreter that cannot be set up); otherwise with
    status 0 when every selected test passes, and with status 2 when a
    selected test that the traversal visits fails. *)
Theorem C7_exit_status (chalk : Chalk) (P : Platform) (h : Heap)
    (flt : option string) (o : Options) :
  (forall reason, Spec.preparation P flt o = inl reason ->
     exitCode (default chalk P h flt o) = 1%Z) /\
  (forall environment, Spec.preparation P flt o = inr environment ->
     ((forall t, In t (getTarget h environment flt o) -> exec P t = None) ->
      exitCode (default chalk P h flt o) = 0%Z) /\
     ((exists t, In t (getTarget h environment flt o) /\
                 In t (forEach h environment) /\ exec P t <> None) ->
      exitCode (default chalk P h flt o) = 2%Z)).
Proof.
  unfold exitCode. rewrite default_outcome.
  split.
  - intros reason ->. reflexivity.
  - intros environment ->. cbv zeta. split.
    + intros Hpass. now rewrite failures_empty.
    + intros (t & Ht & Hin & Hfail).
      rewrite (failures_nonempty P h _ _ t); try assumption; [reflexivity|].
      now apply getTarget_incl, possibleTargets_In in Ht.
Qed.

Lemma C7_witness :
  exitCode (default Sample.plain (Sample.platform false true)
              (Sample.heap Sample.noOnly) None Sample.noOptions) = 1%Z /\
  exitCode (default Sample.plain (Sample.platform false false)
              (Sample.heap Sample.noOnly) None Sample.noOptions) = 0%Z /\
  exitCode (default Sample.plain (Sample.platform true false)
              (Sample.heap Sample.noOnly) None Sample.noOptions) = 2%Z.
Proof.
  split; [|split].
  - apply (C7_exit_status Sample.plain (Sample.platform false true)
             (Sample.heap Sample.noOnly) None Sample.noOptions)
      with (reason := Spec.BuildError).
    reflexivity.
  - apply (C7_exit_status Sample.plain (Sample.platform false false)
             (Sample.heap Sample.noOnly) None Sample.noOptions)
      with (environment := 0).
    + reflexivity.
    + intros t _. reflexivity.
  - apply (C7_exit_status Sample.plain (Sample.platform true false)
             (Sample.heap Sample.noOnly) None Sample.noOptions)
      with (environment := 0).
    + reflexivity.
    + exists 4. cbn. repeat split; auto 10. discriminate.
Defined.

(* ------------------------------------------------------------------ *)
(** ** Failure descriptions: [failureDescription] *)

Lemma substring_0_min (s : string) (n : nat) :
  substring 0 (Nat.min n (String.length s)) s = substring 0 n s.
Proof.
  revert n. induction s as [|c s IH]; intros [|n]; cbn; try reflexivity.
  now rewrite IH.
Qed.

Lemma slice_prefix (s : string) (n : nat) :
  JS.slice s 0 (Z.of_nat n) = substring 0 n s.
Proof.
  unfold JS.slice.
  replace (0 <? 0)%Z with false by reflexivity.
  replace (Z.of_nat n <? 0)%Z with false by (symmetry; apply Z.ltb_ge; lia).
  replace (Z.to_nat (Z.min 0 (Z.of_nat (String.length s)))) with 0 by lia.
  replace (Z.to_nat _) with (Nat.min n (String.length s)) by lia.
  apply substring_0_min.
Qed.

Lemma slice_all_but_last (s : string) :
  JS.slice s 0 (-1) = substring 0 (String.length s - 1) s.
Proof.
  unfold JS.slice.
  replace (0 <? 0)%Z with false by reflexivity.
  replace (-1 <? 0)%Z with true by reflexivity.
  replace (Z.to_nat (Z.min 0 (Z.of_nat (String.length s)))) with 0 by lia.
  replace (Z.to_nat _) with (String.length s - 1) by lia.
  reflexivity.
Qed.

Lemma substring_shorter (s : string) (n : nat) :
  n < String.length s -> substring 0 n s <> s.
Proof.
  revert n. induction s as [|c s IH]; intros n Hn; cbn in Hn; [lia|].
  destruct n as [|n]; cbn; [discriminate|].
  intros E. injection E as E. apply (IH n); [lia|exact E].
Qed.

Section FailureDescription.
Variable P : Platform.
Local Abbreviation marker := (WOLLOK_EXTRA_STACK_TRACE_HEADER P).

(** When the marker occurs, the kept stack is what precedes its first
    occurrence, as specified. *)
Lemma fullStack_marker_present (msg s : string) (n : nat) :
  index 0 marker s = Some n ->
  Utils.fullStack P (Some {| message := msg; stack := Some s |}) =
  Spec.keptStack marker s.
Proof using Type.
  intros Hidx. unfold Utils.fullStack, Utils.indexOfTsStack, Spec.keptStack,
    JS.indexOf.
  cbn [stack JS.optional JS.nullish]. rewrite Hidx.
  apply slice_prefix.
Qed.

(** When it does not occur, [indexOf] answers [-1] and [slice(0, -1)]
    keeps all but the last character. *)
Lemma fullStack_marker_absent (msg s : string) :
  index 0 marker s = None ->
  Utils.fullStack P (Some {| message := msg; stack := Some s |}) =
  substring 0 (String.length s - 1) s.
Proof using Type.
  intros Hidx. unfold Utils.fullStack, Utils.indexOfTsStack, JS.indexOf.
  cbn [stack JS.optional JS.nullish]. rewrite Hidx.
  apply slice_all_but_last.
Qed.

Lemma fullStack_marker_absent_differs (msg s : string) :
  index 0 marker s = None -> s <> EmptyString ->
  Utils.fullStack P (Some {| message := msg; stack := Some s |}) <>
  Spec.keptStack marker s.
Proof using Type.
  intros Hidx Hs. rewrite (fullStack_marker_absent msg s Hidx).
  unfold Spec.keptStack. rewrite Hidx.
  apply substring_shorter. destruct s; [congruence|cbn; lia].
Qed.

End FailureDescription.

(** Joining lines with a newline and two spaces, after a first newline
    and two spaces, puts the two spaces in front of every line. *)
Lemma indent_every_line (lines : list string) :
  lines <> [] ->
  String JS.newline "  " ++ JS.join (map Some lines) (String JS.newline "  ") =
  String.concat EmptyString (map (fun line => String JS.newline "  " ++ line) lines).
Proof.
  unfold JS.join. rewrite map_map. cbn [JS.nullish]. rewrite map_id.
  induction lines as [|l lines IH]; [congruence|]. intros _.
  destruct lines as [|l' lines].
  - reflexivity.
  - change (String.concat ?sep (l :: l' :: lines))
      with (l ++ sep ++ String.concat sep (l' :: lines)).
    rewrite IH by discriminate.
    cbn [map String.concat String.append]. reflexivity.
Qed.

(** C2. On the error whose stack is "Error: boom", in which the marker
    does not occur, the specified kept stack is the whole stack, while the
    code keeps "Error: boo" and prints that: the last character is
    lost. *)
Theorem C2_marker_absent_drops_last_character :
  let P := Sample.platform false false in
  index 0 (WOLLOK_EXTRA_STACK_TRACE_HEADER P) "Error: boom" = None /\
  Spec.keptStack (WOLLOK_EXTRA_STACK_TRACE_HEADER P) "Error: boom" = "Error: boom" /\
  Utils.fullStack P (Some Sample.boom) = "Error: boo" /\
  Utils.failureDescription Sample.plain P "t" (Some Sample.boom) =
    "✗ t" ++ String JS.newline "  Error: boo".
Proof. cbv zeta. repeat split. Qed.

(* ------------------------------------------------------------------ *)
(** ** The scenarios of the specification, run on the sample project *)

(** Scenario A: one test passes, one fails, the filter is empty: both are
    selected, the summary counts one of each, the status is 2. *)
Example scenario_A :
  let run := default Sample.plain (Sample.platform true false)
               (Sample.heap Sample.noOnly) (Some EmptyString) Sample.noOptions in
  getTarget (Sample.heap Sample.noOnly) 0 (Some EmptyString) Sample.noOptions = [3; 4] /\
  last (trace run) Log =
    Info [Utils.ENTER; "✓ 1 passing"; "✗ 1 failing"; Utils.ENTER] /\
  outcome run = Halt 2%Z.
Proof. cbv zeta. repeat split. Qed.

(** Scenario B: with a flagged test, the filter is ignored and only the
    flagged test runs. *)
Example scenario_B :
  let run := default Sample.plain (Sample.platform false false)
               (Sample.heap Sample.onlyOther) (Some "Foo") Sample.noOptions in
  filter (fun ev => match ev with Exec _ => true | _ => false end) (trace run) =
    [Exec 4] /\
  exitCode run = 0%Z.
Proof. cbv zeta. repeat split. Qed.

(** Scenario D: an error-level problem stops the run before any test. *)
Example scenario_D :
  let run := default Sample.plain Sample.invalid
               (Sample.heap Sample.noOnly) None Sample.noOptions in
  filter (fun ev => match ev with Exec _ => true | _ => false end) (trace run) = [] /\
  exitCode run = 1%Z.
Proof. cbv zeta. repeat split. Qed.

(** A stack with the marker is cut at the marker, its tabs and runs of
    four spaces become two spaces, and every line is pushed right by two
    spaces. *)
Example failureDescription_with_marker :
  Utils.failureDescription Sample.plain (Sample.platform false false) "t"
    (Some Sample.wrapped) =
  "✗ t" ++ String JS.newline
  ("  Error: x" ++ String JS.newline
   ("    at foo" ++ String JS.newline
    ("    at bar" ++ String JS.newline "  "))).
Proof. reflexivity. Qed.

(* ------------------------------------------------------------------ *)
(** ** Further properties: [sanitize], [getTarget], [tabulationForNode] *)

Lemma withoutQuotes_idempotent (s : string) :
  Spec.withoutQuotes (Spec.withoutQuotes s) = Spec.withoutQuotes s.
Proof.
  induction s as [|c s IH]; [reflexivity|].
  cbn [Spec.withoutQuotes].
  destruct (Ascii.eqb c (ascii_of_nat 34)) eqn:E; [exact IH|].
  cbn [Spec.withoutQuotes]. rewrite E. now rewrite IH.
Qed.

Lemma withoutQuotes_unquoted (s : string) :
  JS.includes s JS.quote = false -> Spec.withoutQuotes s = s.
Proof.
  induction s as [|c s IH]; [reflexivity|].
  cbn [JS.includes JS.quote prefix Spec.withoutQuotes].
  destruct (ascii_dec (ascii_of_nat 34) c) as [<-|Hne].
  - rewrite prefix_empty. discriminate.
  - cbn [orb]. intros H.
    destruct (Ascii.eqb_spec c (ascii_of_nat 34)) as [->|_]; [congruence|].
    now rewrite IH.
Qed.

(** X1. [sanitize] leaves [undefined] as it is; on a text it answers a
    text without any quote character, equal to the text when this one has
    no quote, and sanitizing twice is sanitizing once. *)
Theorem X1_sanitize_strips_quotes_once_and_for_all :
  sanitize None = None /\
  forall s, exists r,
    sanitize (Some s) = Some r /\
    JS.includes r JS.quote = false /\
    sanitize (Some r) = Some r /\
    (JS.includes s JS.quote = false -> r = s).
Proof.
  split; [reflexivity|]. intros s. exists (Spec.withoutQuotes s).
  rewrite !sanitize_Some, withoutQuotes_idempotent.
  repeat split.
  - apply withoutQuotes_clean.
  - apply withoutQuotes_unquoted.
Qed.

(** X2. Whatever the filter and the options, [getTarget] selects only
    tests that are descendants of the environment, and selects none twice
    when the descendants hold none twice. *)
Theorem X2_getTarget_selects_tests_of_the_environment (h : Heap)
    (environment : Node) (flt : option string) (o : Options) :
  (forall t, In t (getTarget h environment flt o) ->
             In t (descendants h environment) /\ is_Test h t = true) /\
  (NoDup (descendants h environment) -> NoDup (getTarget h environment flt o)).
Proof.
  split.
  - intros t Ht. now apply getTarget_incl, possibleTargets_In in Ht.
  - apply getTarget_NoDup.
Qed.

(** A text starts with [p] when it is [p] followed by something. *)
Lemma prefix_iff (p s : string) :
  prefix p s = true <-> exists rest, s = p ++ rest.
Proof.
  revert s. induction p as [|c p IH]; intros s.
  - rewrite prefix_empty. split; [intros _; now exists s|reflexivity].
  - destruct s as [|c' s]; cbn [prefix].
    + split; [discriminate|]. intros (rest & E). discriminate E.
    + destruct (ascii_dec c c') as [<-|Hne].
      * rewrite IH. split; intros (rest & E); exists rest.
        -- cbn. now rewrite E.
        -- cbn in E. now injection E.
      * split; [discriminate|]. intros (rest & E). cbn in E.
        injection E as E _. congruence.
Qed.

(** [includes] is the substring relation. *)
Lemma includes_iff (s p : string) :
  JS.includes s p = true <-> exists before rest, s = before ++ p ++ rest.
Proof.
  induction s as [|c s IH]; cbn [JS.includes].
  - rewrite orb_false_r, prefix_iff. split.
    + intros (rest & E). now exists EmptyString, rest.
    + intros (before & rest & E). destruct before as [|? ?]; [|discriminate E].
      now exists rest.
  - rewrite orb_true_iff, prefix_iff, IH. split.
    + intros [(rest & E)|(before & rest & E)].
      * now exists EmptyString, rest.
      * exists (String c before), rest. cbn. now rewrite E.
    + intros (before & rest & E). destruct before as [|c' before].
      * left. now exists rest.
      * right. cbn in E. injection E as _ E. now exists before, rest.
Qed.

Lemma append_assoc (a b c : string) : (a ++ b) ++ c = a ++ (b ++ c).
Proof. induction a as [|x a IH]; cbn; [reflexivity|now rewrite IH]. Qed.

Lemma includes_trans (s p q : string) :
  JS.includes s p = true -> JS.includes p q = true -> JS.includes s q = true.
Proof.
  rewrite !includes_iff.
  intros (b1 & r1 & ->) (b2 & r2 & ->).
  exists (b1 ++ b2), (r2 ++ r1).
  now rewrite !append_assoc.
Qed.

(** X3. With no flagged test, a free-text filter that contains another
    one (quotes apart) selects no test the other does not select: making
    the filter longer can only narrow the selection. *)
Theorem X3_longer_filter_narrows_selection (h : Heap) (environment : Node)
    (short long : string) (o o' : Options) :
  (forall t, In t (possibleTargets h environment) -> isOnly h t = false) ->
  JS.includes (Spec.withoutQuotes long) (Spec.withoutQuotes short) = true ->
  forall t, In t (getTarget h environment (Some long) o) ->
            In t (getTarget h environment (Some short) o').
Proof.
  intros Hno Hsub t.
  rewrite !(getTarget_no_only h environment _ _ Hno), !filterTest_present,
    !filter_In, !testMatches_includes.
  intros [Hin Hlong]. split; [exact Hin|].
  now apply (includes_trans _ (Spec.withoutQuotes long)).
Qed.

Lemma X3_witness :
  In 3 (getTarget (Sample.heap Sample.noOnly) 0 (Some "Foo") Sample.noOptions).
Proof.
  apply (X3_longer_filter_narrows_selection (Sample.heap Sample.noOnly) 0
           "Foo" "suite.Foo bar" Sample.noOptions Sample.noOptions).
  - intros t _. reflexivity.
  - reflexivity.
  - cbn. auto.
Defined.

Lemma dots_append (a b : string) :
  Spec.dots (a ++ b) = Spec.dots a + Spec.dots b.
Proof.
  induction a as [|c a IH]; [reflexivity|].
  cbn [String.append Spec.dots]. rewrite IH. lia.
Qed.

Lemma repeat_add (s : string) (n m : nat) :
  JS.repeat s (n + m) = JS.repeat s n ++ JS.repeat s m.
Proof.
  induction n as [|n IH]; [reflexivity|].
  cbn [Nat.add JS.repeat]. now rewrite IH, append_assoc.
Qed.

Lemma tabulationForNode_dots (s : string) :
  tabulationForNode s = JS.repeat "  " (Spec.dots s).
Proof.
  unfold tabulationForNode. rewrite split_length. f_equal. lia.
Qed.

(** X4. A member is indented two spaces more than its container: for a
    member name without a dot, the indentation of [container.member] is
    the container's followed by two spaces. *)
Theorem X4_member_indented_one_level_deeper (container member : string) :
  Spec.dots member = 0 ->
  tabulationForNode (container ++ "." ++ member) =
  tabulationForNode container ++ "  ".
Proof.
  intros Hmember. rewrite !tabulationForNode_dots, !dots_append, Hmember.
  replace (Spec.dots container + (Spec.dots "." + 0))
    with (Spec.dots container + 1) by (cbn; lia).
  now rewrite repeat_add.
Qed.

Lemma X4_witness :
  tabulationForNode ("pkg.suite" ++ "." ++ "other") =
  tabulationForNode "pkg.suite" ++ "  ".
Proof.
  apply (X4_member_indented_one_level_deeper "pkg.suite" "other").
  reflexivity.
Defined.

Lemma X2_witness :
  NoDup (getTarget (Sample.heap Sample.noOnly) 0 (Some "Foo") Sample.noOptions).
Proof.
  apply (X2_getTarget_selects_tests_of_the_environment
           (Sample.heap Sample.noOnly) 0 (Some "Foo") Sample.noOptions).
  repeat constructor; cbn; intuition discriminate.
Defined.

(* ------------------------------------------------------------------ *)
(** ** Further properties: file names and paths *)

Lemma substring_whole (s : string) : substring 0 (String.length s) s = s.
Proof. induction s as [|c s IH]; cbn; [reflexivity|now rewrite IH]. Qed.

Lemma substring_after (a b : string) :
  substring (String.length a) (String.length b) (a ++ b) = b.
Proof. induction a as [|c a IH]; cbn; [apply substring_whole|exact IH]. Qed.

Lemma substring_cut (s : string) (k : nat) :
  k <= String.length s ->
  s = substring 0 k s ++ substring k (String.length s - k) s.
Proof.
  revert k. induction s as [|c s IH]; intros [|k] Hk; cbn in *;
    try reflexivity; try lia.
  - now rewrite substring_whole.
  - f_equal. apply IH. lia.
Qed.

Lemma length_append (a b : string) :
  String.length (a ++ b) = String.length a + String.length b.
Proof. induction a as [|c a IH]; cbn; [reflexivity|now rewrite IH]. Qed.

Lemma endsWith_iff (s suffix : string) :
  Files.endsWith s suffix = true <-> exists base, s = base ++ suffix.
Proof.
  unfold Files.endsWith. split.
  - destruct (Nat.leb_spec (String.length suffix) (String.length s)) as [Hle|_];
      [|discriminate].
    intros E. apply String.eqb_eq in E.
    exists (substring 0 (String.length s - String.length suffix) s).
    pose proof (substring_cut s (String.length s - String.length suffix)) as Hcut.
    replace (String.length s - (String.length s - String.length suffix))
      with (String.length suffix) in Hcut by lia.
    rewrite E in Hcut. apply Hcut. lia.
  - intros (base & ->). rewrite length_append.
    replace (String.length suffix <=? String.length base + String.length suffix)%nat
      with true by (symmetry; apply Nat.leb_le; lia).
    replace (String.length base + String.length suffix - String.length suffix)
      with (String.length base) by lia.
    rewrite substring_after. apply String.eqb_refl.
Qed.

(** X5. [isImageFile] accepts exactly the names that end in the three
    letters png or jpg, in lower case: no dot is asked for before them, so
    a file called "jpg" is an image, and "PHOTO.PNG" is not. *)
Theorem X5_isImageFile_by_last_three_letters :
  (forall file,
     Files.isImageFile file = true <->
     exists base, Files.name file = base ++ "png" \/ Files.name file = base ++ "jpg") /\
  Files.isImageFile {| Files.name := "jpg" |} = true /\
  Files.isImageFile {| Files.name := "PHOTO.PNG" |} = false.
Proof.
  split; [|split; reflexivity].
  intros file. unfold Files.isImageFile, Files.imageExtensions.
  cbn [existsb]. rewrite orb_false_r, orb_true_iff, !endsWith_iff.
  split.
  - intros [(base & E)|(base & E)]; exists base; tauto.
  - intros (base & [E|E]); [left|right]; now exists base.
Qed.

Lemma split_first_part (s : string) :
  exists rest,
    s = nth 0 (JS.split s JS.dot) EmptyString ++ rest /\
    Files.occurrences JS.dot (nth 0 (JS.split s JS.dot) EmptyString) = 0 /\
    (rest = EmptyString \/ exists r, rest = "." ++ r).
Proof.
  induction s as [|c s (rest & Hs & Hdots & Hrest)].
  - exists EmptyString. cbn. auto.
  - cbn [JS.split]. destruct (Ascii.eqb_spec c JS.dot) as [->|Hne].
    + exists (String JS.dot s). cbn. split; [reflexivity|].
      split; [reflexivity|]. right. now exists s.
    + destruct (JS.split s JS.dot) as [|seg parts] eqn:E.
      * now apply split_nonempty in E.
      * cbn [nth] in *. exists rest. cbn [String.append Files.occurrences].
        rewrite <- Hs, Hdots.
        destruct (Ascii.eqb_spec c JS.dot) as [->|_]; [congruence|].
        auto.
Qed.

(** X6. [relativeFilePath] is the relative path cut at its first dot: it
    has no dot, the path is it followed by nothing or by a dot and the
    rest, and a relative path that starts with a dot (one that leaves the
    project, as in ../other/a.wlk) gives the empty text. *)
Theorem X6_relativeFilePath_stops_at_first_dot (path : Files.Path)
    (project filePath : string) :
  let r := Files.relativeFilePath path project filePath in
  Files.occurrences JS.dot r = 0 /\
  (exists rest,
     Files.relative path project filePath = r ++ rest /\
     (rest = EmptyString \/ exists rest', rest = "." ++ rest')) /\
  ((exists rest, Files.relative path project filePath = "." ++ rest) ->
   r = EmptyString).
Proof.
  cbv zeta. unfold Files.relativeFilePath.
  destruct (split_first_part (Files.relative path project filePath))
    as (rest & Hs & Hdots & Hrest).
  split; [exact Hdots|]. split; [now exists rest|].
  intros (rest' & E). rewrite E. reflexivity.
Qed.

Lemma X6_witness :
  Files.relativeFilePath Files.posix "proj" "../other/a.wlk" = EmptyString.
Proof.
  apply (X6_relativeFilePath_stops_at_first_dot Files.posix "proj" "../other/a.wlk").
  now exists "./other/a.wlk".
Defined.

Lemma relativeFilePath_no_dot (path : Files.Path) (project filePath : string) :
  Files.occurrences JS.dot (Files.relativeFilePath path project filePath) = 0.
Proof.
  unfold Files.relativeFilePath.
  now destruct (split_first_part (Files.relative path project filePath))
    as (rest & _ & Hdots & _).
Qed.

Lemma replaceAll_char_cons (c x : ascii) (rep s : string) :
  JS.replaceAll (String x s) (String c EmptyString) rep =
  if Ascii.eqb x c then rep ++ JS.replaceAll s (String c EmptyString) rep
  else String x (JS.replaceAll s (String c EmptyString) rep).
Proof.
  unfold JS.replaceAll. cbn [JS.replaceAll_from prefix String.length].
  destruct (ascii_dec c x) as [->|Hne].
  - now rewrite prefix_empty, Ascii.eqb_refl.
  - destruct (Ascii.eqb_spec x c) as [->|_]; [congruence|reflexivity].
Qed.

Lemma replaceAll_char_by_dot (c : ascii) (s : string) :
  c <> JS.dot ->
  String.length (JS.replaceAll s (String c EmptyString) ".") = String.length s /\
  Files.occurrences c (JS.replaceAll s (String c EmptyString) ".") = 0 /\
  Files.occurrences JS.dot (JS.replaceAll s (String c EmptyString) ".") =
    Files.occurrences JS.dot s + Files.occurrences c s.
Proof.
  intros Hne. induction s as [|x s (IHl & IHc & IHd)]; [now cbn|].
  rewrite replaceAll_char_cons.
  destruct (Ascii.eqb_spec x c) as [->|Hx].
  - cbn [String.append String.length Files.occurrences].
    assert (Hdc : Ascii.eqb "."%char c = false)
      by (apply Ascii.eqb_neq; intros E; apply Hne; now rewrite <- E).
    assert (Hcd : Ascii.eqb c JS.dot = false) by now apply Ascii.eqb_neq.
    change (Ascii.eqb "."%char JS.dot) with true.
    rewrite Hdc, Hcd, Ascii.eqb_refl, IHl, IHc, IHd. repeat split; lia.
  - cbn [String.length Files.occurrences].
    destruct (Ascii.eqb_spec x c) as [E|_]; [congruence|].
    rewrite IHl, IHc, IHd. repeat split; lia.
Qed.

(** X7. When the path separator is not the dot, [getFQN] holds no
    separator, is as long as [relativeFilePath], and has one dot for each
    separator of [relativeFilePath]: its dotted segments are the path's
    components, up to the first dot of the path. *)
Theorem X7_getFQN_dots_for_separators (path : Files.Path)
    (project filePath : string) :
  Files.sep path <> JS.dot ->
  let r := Files.relativeFilePath path project filePath in
  let fqn := Files.getFQN path project filePath in
  Files.occurrences (Files.sep path) fqn = 0 /\
  String.length fqn = String.length r /\
  Files.occurrences JS.dot fqn = Files.occurrences (Files.sep path) r.
Proof.
  intros Hsep. cbv zeta. unfold Files.getFQN.
  destruct (replaceAll_char_by_dot (Files.sep path)
              (Files.relativeFilePath path project filePath) Hsep)
    as (Hl & Hc & Hd).
  repeat split; try assumption.
  rewrite Hd, relativeFilePath_no_dot. reflexivity.
Qed.

Lemma X7_witness :
  Files.occurrences (Files.sep Files.posix)
    (Files.getFQN Files.posix "proj" "games/pepita.wlk") = 0 /\
  String.length (Files.getFQN Files.posix "proj" "games/pepita.wlk") =
    String.length (Files.relativeFilePath Files.posix "proj" "games/pepita.wlk") /\
  Files.occurrences JS.dot (Files.getFQN Files.posix "proj" "games/pepita.wlk") =
    Files.occurrences (Files.sep Files.posix)
      (Files.relativeFilePath Files.posix "proj" "games/pepita.wlk").
Proof.
  apply (X7_getFQN_dots_for_separators Files.posix "proj" "games/pepita.wlk").
  discriminate.
Defined.

Example getFQN_ex :
  Files.getFQN Files.posix "proj" "games/birds/pepita.wlk" = "games.birds.pepita".
Proof. reflexivity. Qed.

(* ------------------------------------------------------------------ *)
(** ** Further properties: [failureDescription] *)

Lemma substring_is_prefix (s : string) (k : nat) :
  exists rest, s = substring 0 k s ++ rest.
Proof.
  revert k. induction s as [|c s IH]; intros [|k]; cbn.
  - now exists EmptyString.
  - now exists EmptyString.
  - now exists (String c s).
  - destruct (IH k) as (rest & E). exists rest. now rewrite <- E.
Qed.

(** The text up to the first occurrence of [p] is followed by [p]. *)
Lemma index_split (p s : string) (n : nat) :
  index 0 p s = Some n ->
  exists rest, s = substring 0 n s ++ p ++ rest.
Proof.
  revert n. induction s as [|c s IH]; intros n; cbn [index].
  - destruct p; [|discriminate]. intros [= <-]. now exists EmptyString.
  - destruct (prefix p (String c s)) eqn:Hp.
    + intros [= <-]. apply prefix_iff in Hp as (rest & E).
      exists rest. exact E.
    + destruct (index 0 p s) as [k|]; [|discriminate].
      intros [= <-]. destruct (IH k eq_refl) as (rest & E).
      exists rest. cbn. now rewrite <- E.
Qed.

(** ... and [p] does not occur in it. *)
Lemma index_first (p s : string) (n : nat) :
  index 0 p s = Some n -> p <> EmptyString ->
  JS.includes (substring 0 n s) p = false.
Proof.
  intros Hidx Hp. revert n Hidx.
  induction s as [|c s IH]; intros n; cbn [index].
  - destruct p; [congruence|discriminate].
  - destruct (prefix p (String c s)) eqn:Hpre.
    + intros [= <-]. cbn. destruct p; [congruence|reflexivity].
    + destruct (index 0 p s) as [k|]; [|discriminate].
      intros [= <-]. cbn [substring JS.includes].
      rewrite (IH k eq_refl), orb_false_r.
      destruct (prefix p (String c (substring 0 k s))) eqn:Hpre'; [|reflexivity].
      apply prefix_iff in Hpre' as (r & E).
      destruct (substring_is_prefix s k) as (r' & E').
      assert (Hfull : prefix p (String c s) = true).
      { apply prefix_iff. exists (r ++ r').
        rewrite <- append_assoc, <- E. cbn. now rewrite <- E'. }
      congruence.
Qed.

(** X8. When the marker, not empty, occurs in the stack of the error,
    the stack [failureDescription] keeps is the text before the first
    occurrence: the stack is the kept text, then the marker, then the
    rest, and the marker does not occur in the kept text. *)
Theorem X8_stack_cut_at_first_marker (P : Platform) (msg s : string) (n : nat) :
  index 0 (WOLLOK_EXTRA_STACK_TRACE_HEADER P) s = Some n ->
  WOLLOK_EXTRA_STACK_TRACE_HEADER P <> EmptyString ->
  let kept := Utils.fullStack P (Some {| message := msg; stack := Some s |}) in
  (exists rest, s = kept ++ WOLLOK_EXTRA_STACK_TRACE_HEADER P ++ rest) /\
  JS.includes kept (WOLLOK_EXTRA_STACK_TRACE_HEADER P) = false.
Proof.
  intros Hidx Hmarker. cbv zeta.
  rewrite (fullStack_marker_present P msg s n Hidx).
  unfold Spec.keptStack. rewrite Hidx.
  split; [now apply index_split|now apply index_first].
Qed.

Lemma X8_witness :
  let P := Sample.platform false false in
  let kept := Utils.fullStack P (Some Sample.wrapped) in
  (exists rest,
     String.append "Error: x"
       (String JS.newline
          (JS.tab ++ "at foo" ++ String JS.newline
             ("    at bar" ++ String JS.newline
                ("Derived from TypeScript stack" ++ String JS.newline "    at baz")))) =
     kept ++ WOLLOK_EXTRA_STACK_TRACE_HEADER P ++ rest) /\
  JS.includes kept (WOLLOK_EXTRA_STACK_TRACE_HEADER P) = false.
Proof.
  apply (X8_stack_cut_at_first_marker (Sample.platform false false) "x" _ 28).
  - reflexivity.
  - discriminate.
Defined.

Lemma append_empty (s : string) : s ++ EmptyString = s.
Proof. induction s as [|c s IH]; cbn; [reflexivity|now rewrite IH]. Qed.

(** X9. [failureDescription] adds no stack to the description when no
    error is given, when the error has no stack, and when its stack
    starts with the marker: the answer is the cross, a space and the
    description, in red. *)
Theorem X9_no_stack_no_stack_lines (chalk : Chalk) (P : Platform)
    (description : string) (e : option Error) :
  (e = None \/
   (exists err, e = Some err /\ stack err = None) \/
   (exists err s, e = Some err /\ stack err = Some s /\
                  index 0 (WOLLOK_EXTRA_STACK_TRACE_HEADER P) s = Some 0)) ->
  Utils.failureDescription chalk P description e =
  red chalk (bold chalk "✗" ++ " " ++ description).
Proof.
  intros Hcase.
  assert (Hfull : Utils.fullStack P e = EmptyString).
  { destruct Hcase as [->|[(err & -> & Hs)|(err & s & -> & Hs & Hidx)]].
    - reflexivity.
    - unfold Utils.fullStack. now rewrite Hs.
    - destruct err as [msg st]. cbn in Hs. subst st.
      rewrite (fullStack_marker_present P msg s 0 Hidx).
      unfold Spec.keptStack. rewrite Hidx. now destruct s. }
  unfold Utils.failureDescription, Utils.indentedStack. rewrite Hfull.
  cbn. now rewrite append_empty.
Qed.

Lemma X9_witness :
  Utils.failureDescription Sample.plain (Sample.platform false false) "2 failing" None =
  red Sample.plain (bold Sample.plain "✗" ++ " " ++ "2 failing").
Proof.
  apply (X9_no_stack_no_stack_lines Sample.plain (Sample.platform false false)
           "2 failing" None).
  now left.
Defined.

(* ------------------------------------------------------------------ *)
(** ** Further properties: what the command does, and in which case *)

Lemma in_trace_bind {A B : Type} (m : M A) (k : A -> M B) (ev : Event) :
  In ev (trace (bind m k)) <->
  In ev (trace m) \/ exists a, outcome m = Ret a /\ In ev (trace (k a)).
Proof.
  rewrite trace_bind. destruct m as [t [a|e|c]]; cbn [outcome trace fst snd].
  - rewrite in_app_iff. split.
    + intros [H|H]; [now left|right; now exists a].
    + intros [H|(a' & [= <-] & H)]; [now left|now right].
  - split; [now left|]. intros [H|(a' & E & _)]; [exact H|discriminate E].
  - split; [now left|]. intros [H|(a' & E & _)]; [exact H|discriminate E].
Qed.

Lemma in_trace_catch {A : Type} (m : M A) (handler : Error -> M A) (ev : Event) :
  In ev (trace (catch m handler)) <->
  In ev (trace m) \/ exists e, outcome m = Throw e /\ In ev (trace (handler e)).
Proof.
  rewrite trace_catch. destruct m as [t [a|e|c]]; cbn [outcome trace fst snd].
  - split; [now left|]. intros [H|(e' & E & _)]; [exact H|discriminate E].
  - rewrite in_app_iff. split.
    + intros [H|H]; [now left|right; now exists e].
    + intros [H|(e' & [= <-] & H)]; [now left|now right].
  - split; [now left|]. intros [H|(e' & E & _)]; [exact H|discriminate E].
Qed.

Section CommandEvents.
Variable chalk : Chalk.
Variable P : Platform.
Variable h : Heap.

Lemma when_events (b : bool) (ev0 ev : Event) :
  In ev (trace (when b (emit ev0))) -> ev = ev0.
Proof using Type. destruct b; cbn; intuition. Qed.

Lemma buildEnvironmentForProject_events (project : string) (ev : Event) :
  In ev (trace (Utils.buildEnvironmentForProject P project)) ->
  Observe.reports ev = true \/ ev = ReadProject project \/ ev = Build.
Proof using Type.
  unfold Utils.buildEnvironmentForProject.
  destruct (debug P), (readProjectFiles P project) as [e|files]; cbn;
    try destruct (buildEnvironment P files); cbn;
    intuition (subst; auto).
Qed.

(** What validation does, case by case. *)
Lemma validateEnvironment_trace (environment : Node) (skip : bool) :
  trace (Utils.validateEnvironment chalk P environment skip) =
  if skip then []
  else
    Validate environment ::
    match validate P environment with
    | inl e => [DebugValue e]
    | inr problems =>
        (map (fun problem => Info [Utils.problemDescription chalk problem]) problems ++
         if (List.length problems =? 0)%nat then
           [Info [Utils.successDescription chalk
                    "No problems found building the environment!"]]
         else if existsb Utils.is_error problems then
           [DebugValue (Utils.newError P "Aborting run due to validation errors!")]
         else [])%list
    end.
Proof using Type.
  unfold Utils.validateEnvironment. destruct skip; [reflexivity|].
  cbn [negb]. rewrite trace_catch, outcome_bind, trace_bind.
  cbn [outcome trace emit fst snd]. rewrite outcome_bind, trace_bind.
  destruct (validate P environment) as [e|problems];
    cbn [call outcome trace throw ret fst snd app]; [reflexivity|].
  rewrite outcome_bind, trace_bind.
  rewrite (forEachM_returns _
             (fun problem => [Info [Utils.problemDescription chalk problem]])
             (fun _ _ => tt)) by reflexivity.
  cbn [outcome trace fst snd].
  replace (flat_map (fun problem => [Info [Utils.problemDescription chalk problem]])
             problems)
    with (map (fun problem => Info [Utils.problemDescription chalk problem]) problems)
    by (induction problems as [|p ps IH]; cbn; [reflexivity|now rewrite IH]).
  destruct problems as [|p problems]; [reflexivity|].
  cbn [List.length Nat.eqb].
  destruct (existsb Utils.is_error (p :: problems)); cbn; rewrite ?app_nil_r;
    reflexivity.
Qed.

(** What validation throws. *)
Lemma validateEnvironment_throws (environment : Node) :
  outcome (Utils.validateEnvironment chalk P environment false) =
  match validate P environment with
  | inl e =>
      Throw (Utils.newError P
               ("Fatal error while running validations. " ++ message e))
  | inr problems =>
      if existsb Utils.is_error problems then
        Throw (Utils.newError P
                 ("Fatal error while running validations. " ++
                  "Aborting run due to validation errors!"))
      else Ret tt
  end.
Proof using Type.
  unfold Utils.validateEnvironment. cbn [negb].
  rewrite outcome_catch, outcome_bind. cbn [outcome emit snd].
  rewrite outcome_bind.
  destruct (validate P environment) as [e|problems];
    cbn [call outcome throw ret snd]; [reflexivity|].
  rewrite outcome_bind.
  rewrite (forEachM_returns _
             (fun problem => [Info [Utils.problemDescription chalk problem]])
             (fun _ _ => tt)) by reflexivity.
  cbn [outcome snd].
  destruct problems as [|p problems]; [reflexivity|].
  cbn [List.length Nat.eqb].
  destruct (existsb Utils.is_error (p :: problems)); reflexivity.
Qed.

Lemma validateEnvironment_events (environment : Node) (skip : bool) (ev : Event) :
  In ev (trace (Utils.validateEnvironment chalk P environment skip)) ->
  Observe.reports ev = true \/ (ev = Validate environment /\ skip = false).
Proof using Type.
  rewrite validateEnvironment_trace. destruct skip; [intros []|].
  intros [<-|Hin]; [now right|]. left.
  destruct (validate P environment) as [e|problems].
  - destruct Hin as [<-|[]]. reflexivity.
  - apply in_app_iff in Hin as [Hin|Hin].
    + apply in_map_iff in Hin as (p & <- & _). reflexivity.
    + destruct (List.length problems =? 0)%nat;
        [|destruct (existsb Utils.is_error problems)];
        cbn in Hin; intuition (subst; reflexivity).
Qed.

Lemma traversal_events (targets : list Node) (environment : Node) (ev : Event) :
  In ev (flat_map (Traversal.events chalk P h targets) (forEach h environment)) ->
  Observe.reports ev = true \/
  exists t, ev = Exec t /\ In t targets /\ is_Test h t = true /\
            In t (forEach h environment).
Proof using Type.
  intros Hin. apply in_flat_map in Hin as (node & Hnode & Hin).
  destruct ev; try (left; reflexivity).
  - unfold Traversal.events in Hin.
    destruct (is_Test h node); [destruct (includes targets node)|
      destruct (is_Entity h node);
      [destruct (Traversal.hasSelectedDescendant h targets node)|]];
      cbn in Hin; intuition discriminate.
  - unfold Traversal.events in Hin.
    destruct (is_Test h node); [destruct (includes targets node)|
      destruct (is_Entity h node);
      [destruct (Traversal.hasSelectedDescendant h targets node)|]];
      cbn in Hin; intuition discriminate.
  - unfold Traversal.events in Hin.
    destruct (is_Test h node); [destruct (includes targets node)|
      destruct (is_Entity h node);
      [destruct (Traversal.hasSelectedDescendant h targets node)|]];
      cbn in Hin; intuition discriminate.
  - unfold Traversal.events in Hin.
    destruct (is_Test h node); [destruct (includes targets node)|
      destruct (is_Entity h node);
      [destruct (Traversal.hasSelectedDescendant h targets node)|]];
      cbn in Hin; intuition discriminate.
  - right. exists node0.
    apply (events_Exec chalk P h targets node node0) in Hin as [-> Hex].
    apply executed_iff in Hex as [Htest Ht]. auto.
Qed.

Lemma runTests_events (environment : Node) (targets : list Node) (ev : Event) :
  In ev (trace (runTests chalk P h environment targets)) ->
  ev = Interpret environment \/
  Observe.reports ev = true \/
  (interpret P environment = None /\
   exists t, ev = Exec t /\ In t targets /\ is_Test h t = true /\
             In t (forEach h environment)).
Proof using Type.
  unfold runTests. rewrite in_trace_bind. cbn [trace emit fst In].
  intros [[<-|[]]|(_ & _ & Hin)]; [now left|].
  apply in_trace_bind in Hin as [Hin|(u & Hret & Hin)].
  - destruct (interpret P environment); destruct Hin.
  - destruct (interpret P environment) as [e|] eqn:Hi; [discriminate Hret|].
    rewrite traversal_returns in Hin. cbn [trace fst] in Hin.
    apply traversal_events in Hin as [Hin|Hin]; [now (right; left)|].
    right. right. now split.
Qed.

Lemma handleError_events (err : Error) (ev : Event) :
  In ev (trace (bind (Utils.handleError chalk P err) (fun _ => exit (A := unit) 1%Z))) ->
  Observe.reports ev = true.
Proof using Type. cbn. intuition (subst; reflexivity). Qed.

Lemma reportFailures_events (fs : list (Node * Error)) (ev : Event) :
  In ev (trace (forEachM (reportFailure chalk P h) fs tt)) ->
  Observe.reports ev = true.
Proof using Type.
  rewrite (forEachM_returns _
             (fun failure =>
                [Log;
                 LogError
                   [Utils.failureDescription chalk P
                      (bold chalk (fullyQualifiedName h (fst failure)))
                      (Some (snd failure))]])
             (fun _ _ => tt)) by (intros [t e] []; reflexivity).
  cbn [trace fst]. intros Hin. apply in_flat_map in Hin as (f & _ & Hin).
  cbn in Hin. intuition (subst; reflexivity).
Qed.

End CommandEvents.

(** Where each event of a run comes from. *)
Lemma default_events (chalk : Chalk) (P : Platform) (h : Heap)
    (flt : option string) (o : Options) (ev : Event) :
  In ev (trace (default chalk P h flt o)) ->
  Observe.reports ev = true \/ ev = ReadProject (project o) \/ ev = Build \/
  exists files environment,
    readProjectFiles P (project o) = inr files /\
    buildEnvironment P files = inr environment /\
    ((ev = Validate environment /\ skipValidations o = false) \/
     (outcome (Utils.validateEnvironment chalk P environment (skipValidations o)) =
        Ret tt /\
      (ev = Interpret environment \/
       (interpret P environment = None /\
        exists t, ev = Exec t /\
                  In t (getTarget h environment flt o) /\
                  is_Test h t = true /\
                  In t (forEach h environment))))).
Proof.
  unfold default. intros Hin.
  apply in_trace_catch in Hin as [Hin|(e & _ & Hin)];
    [|left; now apply (handleError_events chalk P e)].
  apply in_trace_bind in Hin as [Hin|(u0 & _ & Hin)].
  { unfold validateParameters in Hin.
    destruct (JS.truthy flt && _) in Hin; destruct Hin. }
  apply in_trace_bind in Hin as [Hin|(u1 & _ & Hin)].
  { destruct Hin as [<-|[]]. now left. }
  apply in_trace_bind in Hin as [Hin|(environment & Hbuild & Hin)].
  { apply buildEnvironmentForProject_events in Hin. tauto. }
  rewrite buildEnvironmentForProject_outcome in Hbuild.
  destruct (readProjectFiles P (project o)) as [e|files] eqn:Hread;
    [discriminate Hbuild|].
  destruct (buildEnvironment P files) as [e|environment'] eqn:Hb;
    [discriminate Hbuild|].
  injection Hbuild as ->.
  apply in_trace_bind in Hin as [Hin|(u2 & Hval & Hin)].
  { apply validateEnvironment_events in Hin as [Hin|Hin]; [now left|].
    do 3 right. exists files, environment. auto. }
  destruct u2. cbv zeta in Hin.
  apply in_trace_bind in Hin as [Hin|(u3 & _ & Hin)].
  { destruct Hin as [<-|[]]. now left. }
  apply in_trace_bind in Hin as [Hin|(u4 & _ & Hin)].
  { apply when_events in Hin as ->. now left. }
  apply in_trace_bind in Hin as [Hin|(st & _ & Hin)].
  { apply runTests_events in Hin as [->|[Hin|Hin]]; [|now left|].
    - do 3 right. exists files, environment. auto 10.
    - do 3 right. exists files, environment. auto 10. }
  left.
  apply in_trace_bind in Hin as [Hin|(u5 & _ & Hin)].
  { destruct Hin as [<-|[]]. reflexivity. }
  apply in_trace_bind in Hin as [Hin|(u6 & _ & Hin)].
  { now apply when_events in Hin as ->. }
  apply in_trace_bind in Hin as [Hin|(u7 & _ & Hin)].
  { now apply reportFailures_events in Hin. }
  apply in_trace_bind in Hin as [Hin|(u8 & _ & Hin)].
  { destruct Hin as [<-|[]]. reflexivity. }
  destruct (0 <? _)%nat in Hin; destruct Hin.
Qed.

(** X10. The command executes a test only when it is one of the targets
    [getTarget] selected in the environment that was built, is a test
    that the traversal visits, validation let the run go on, and the
    interpreter could be set up. *)
Theorem X10_only_selected_tests_are_executed (chalk : Chalk) (P : Platform)
    (h : Heap) (flt : option string) (o : Options) (t : Node) :
  In (Exec t) (trace (default chalk P h flt o)) ->
  exists files environment,
    readProjectFiles P (project o) = inr files /\
    buildEnvironment P files = inr environment /\
    outcome (Utils.validateEnvironment chalk P environment (skipValidations o)) =
      Ret tt /\
    interpret P environment = None /\
    In t (getTarget h environment flt o) /\
    is_Test h t = true /\
    In t (forEach h environment).
Proof.
  intros Hin.
  apply default_events in Hin
    as [Hin|[Hin|[Hin|(files & environment & Hread & Hbuild & Hin)]]];
    try discriminate Hin.
  exists files, environment.
  destruct Hin as [[Hin _]|(Hval & [Hin|(Hi & t' & Hin & Ht)])];
    try discriminate Hin.
  injection Hin as ->. tauto.
Qed.

Lemma X10_witness :
  exists files environment,
    readProjectFiles (Sample.platform true false) (project Sample.noOptions) =
      inr files /\
    buildEnvironment (Sample.platform true false) files = inr environment /\
    outcome (Utils.validateEnvironment Sample.plain (Sample.platform true false)
               environment (skipValidations Sample.noOptions)) = Ret tt /\
    interpret (Sample.platform true false) environment = None /\
    In 4 (getTarget (Sample.heap Sample.noOnly) environment None Sample.noOptions) /\
    is_Test (Sample.heap Sample.noOnly) 4 = true /\
    In 4 (forEach (Sample.heap Sample.noOnly) environment).
Proof.
  apply (X10_only_selected_tests_are_executed Sample.plain
           (Sample.platform true false) (Sample.heap Sample.noOnly)
           None Sample.noOptions 4).
  vm_compute. auto 20.
Defined.

(** X11. With [skipValidations] the validator is never called. *)
Theorem X11_skipValidations_skips_the_validator (chalk : Chalk) (P : Platform)
    (h : Heap) (flt : option string) (o : Options) :
  skipValidations o = true ->
  existsb Observe.callsValidator (trace (default chalk P h flt o)) = false.
Proof.
  intros Hskip.
  destruct (existsb Observe.callsValidator (trace (default chalk P h flt o)))
    eqn:E; [|reflexivity].
  apply existsb_exists in E as (ev & Hin & Hev).
  destruct ev; try discriminate Hev.
  apply default_events in Hin
    as [Hin|[Hin|[Hin|(files & env & _ & _ & Hin)]]]; try discriminate Hin.
  destruct Hin as [[_ Hno]|(_ & [Hin|(_ & t & Hin & _)])];
    try discriminate Hin.
  congruence.
Qed.

Lemma X11_witness :
  existsb Observe.callsValidator
    (trace (default Sample.plain Sample.invalid (Sample.heap Sample.noOnly) None
              {| file := None; describe := None; test := None;
                 project := "."; skipValidations := true |})) = false.
Proof.
  apply (X11_skipValidations_skips_the_validator Sample.plain Sample.invalid
           (Sample.heap Sample.noOnly) None
           {| file := None; describe := None; test := None;
              project := "."; skipValidations := true |}).
  reflexivity.
Defined.

(** X12. When validation is not skipped and the validator reports a
    problem of level error, the command sets up no interpreter and runs
    no test, logs the error "Fatal error while running validations.
    Aborting run due to validation errors!" and ends with status 1. *)
Theorem X12_validation_errors_stop_the_run (chalk : Chalk) (P : Platform)
    (h : Heap) (flt : option string) (o : Options)
    (files : list FileContent) (environment : Node) (problems : list Problem) :
  JS.truthy flt &&
    (JS.truthy (file o) || JS.truthy (describe o) || JS.truthy (test o)) = false ->
  readProjectFiles P (project o) = inr files ->
  buildEnvironment P files = inr environment ->
  skipValidations o = false ->
  validate P environment = inr problems ->
  existsb Utils.is_error problems = true ->
  existsb Observe.runsInterpreter (trace (default chalk P h flt o)) = false /\
  In (LogError
        [red chalk
           "Fatal error while running validations. Aborting run due to validation errors!"])
     (trace (default chalk P h flt o)) /\
  exitCode (default chalk P h flt o) = 1%Z.
Proof.
  intros Hparams Hread Hbuild Hskip Hvalidate Herror.
  assert (Hthrows :
    outcome (Utils.validateEnvironment chalk P environment (skipValidations o)) =
    Throw (Utils.newError P
             "Fatal error while running validations. Aborting run due to validation errors!")).
  { rewrite Hskip, validateEnvironment_throws, Hvalidate, Herror. reflexivity. }
  split; [|split].
  - destruct (existsb Observe.runsInterpreter (trace (default chalk P h flt o)))
      eqn:E; [|reflexivity].
    apply existsb_exists in E as (ev & Hin & Hev).
    apply default_events in Hin
      as [Hin|[Hin|[Hin|(files' & env' & Hread' & Hbuild' & Hin)]]];
      try (destruct ev; discriminate).
    rewrite Hread in Hread'. injection Hread' as <-.
    rewrite Hbuild in Hbuild'. injection Hbuild' as <-.
    destruct Hin as [[-> _]|(Hval & _)]; [discriminate Hev|].
    rewrite Hthrows in Hval. discriminate Hval.
  - unfold default. apply in_trace_catch. right.
    eexists. split.
    + rewrite outcome_bind. unfold validateParameters at 1. rewrite Hparams.
      cbn [outcome ret snd]. rewrite outcome_bind. cbn [outcome emit snd].
      rewrite outcome_bind, buildEnvironmentForProject_outcome, Hread, Hbuild.
      rewrite outcome_bind, Hthrows. reflexivity.
    + cbn. auto.
  - unfold exitCode. rewrite default_outcome. unfold Spec.preparation.
    now rewrite Hparams, Hread, Hbuild, Hskip, Hvalidate, Herror.
Qed.

Lemma X12_witness :
  existsb Observe.runsInterpreter
    (trace (default Sample.plain Sample.invalid (Sample.heap Sample.noOnly)
              None Sample.noOptions)) = false /\
  In (LogError
        [red Sample.plain
           "Fatal error while running validations. Aborting run due to validation errors!"])
     (trace (default Sample.plain Sample.invalid (Sample.heap Sample.noOnly)
               None Sample.noOptions)) /\
  exitCode (default Sample.plain Sample.invalid (Sample.heap Sample.noOnly)
              None Sample.noOptions) = 1%Z.
Proof.
  apply (X12_validation_errors_stop_the_run Sample.plain Sample.invalid
           (Sample.heap Sample.noOnly) None Sample.noOptions
           [{| file_name := "pkg.wtest"; content := EmptyString |}] 0
           [{| level := error; code := "nameShouldNotBeKeyword";
               sourceInfo := None |}]);
    reflexivity.
Defined.

(** X13. No exception escapes the command: it returns, or terminates the
    process with status 1 or 2, and never with another status. *)
Theorem X13_command_never_throws (chalk : Chalk) (P : Platform) (h : Heap)
    (flt : option string) (o : Options) :
  outcome (default chalk P h flt o) = Ret tt \/
  outcome (default chalk P h flt o) = Halt 1%Z \/
  outcome (default chalk P h flt o) = Halt 2%Z.
Proof.
  rewrite default_outcome.
  destruct (Spec.preparation P flt o) as [reason|environment]; [auto|].
  cbv zeta. destruct (0 <? _)%nat; auto.
Qed.

(** X14. When the validator answers, validation logs every problem it
    was given, in the validator's order, right after calling it and
    before anything else. Problems that are all warnings let the run go
    on; one problem of level error makes validation throw the error
    "Fatal error while running validations. Aborting run due to
    validation errors!". *)
Theorem X14_validation_reports_every_problem (chalk : Chalk) (P : Platform)
    (environment : Node) (problems : list Problem) :
  validate P environment = inr problems ->
  let run := Utils.validateEnvironment chalk P environment false in
  (exists rest,
     trace run =
     (Validate environment ::
      map (fun problem => Info [Utils.problemDescription chalk problem]) problems ++
      rest)%list) /\
  (existsb Utils.is_error problems = false -> outcome run = Ret tt) /\
  (existsb Utils.is_error problems = true ->
   exists e,
     outcome run = Throw e /\
     message e =
       "Fatal error while running validations. Aborting run due to validation errors!").
Proof.
  intros Hvalidate run. subst run.
  rewrite validateEnvironment_trace, validateEnvironment_throws, Hvalidate.
  split; [eexists; reflexivity|].
  split; intros ->; [reflexivity|].
  eexists. split; reflexivity.
Qed.

Lemma X14_witness :
  let run := Utils.validateEnvironment Sample.plain Sample.invalid 0 false in
  (exists rest,
     trace run =
     (Validate 0 ::
      map (fun problem => Info [Utils.problemDescription Sample.plain problem])
        [{| level := error; code := "nameShouldNotBeKeyword"; sourceInfo := None |}] ++
      rest)%list) /\
  (existsb Utils.is_error
     [{| level := error; code := "nameShouldNotBeKeyword"; sourceInfo := None |}] =
   false -> outcome run = Ret tt) /\
  (existsb Utils.is_error
     [{| level := error; code := "nameShouldNotBeKeyword"; sourceInfo := None |}] =
   true ->
   exists e,
     outcome run = Throw e /\
     message e =
       "Fatal error while running validations. Aborting run due to validation errors!").
Proof.
  apply (X14_validation_reports_every_problem Sample.plain Sample.invalid 0
           [{| level := error; code := "nameShouldNotBeKeyword";
               sourceInfo := None |}]).
  reflexivity.
Defined.

(** X15. When the validator itself throws, validation logs what it threw
    at debug level only and throws a new error, whose message is the
    original one after "Fatal error while running validations. ". *)
Theorem X15_validator_failure_is_rethrown (chalk : Chalk) (P : Platform)
    (environment : Node) (e : Error) :
  validate P environment = inl e ->
  let run := Utils.validateEnvironment chalk P environment false in
  trace run = [Validate environment; DebugValue e] /\
  exists e',
    outcome run = Throw e' /\
    message e' = "Fatal error while running validations. " ++ message e.
Proof.
  intros Hvalidate run. subst run.
  rewrite validateEnvironment_trace, validateEnvironment_throws, Hvalidate.
  split; [reflexivity|]. eexists. split; reflexivity.
Qed.

Lemma X15_witness :
  let run := Utils.validateEnvironment Sample.plain Sample.crashing 0 false in
  trace run = [Validate 0; DebugValue Sample.boom] /\
  exists e',
    outcome run = Throw e' /\
    message e' = "Fatal error while running validations. " ++ message Sample.boom.
Proof.
  apply (X15_validator_failure_is_rethrown Sample.plain Sample.crashing 0 Sample.boom).
  reflexivity.
Defined.

(** What a run that reaches its tests went through. *)
Lemma preparation_inr (chalk : Chalk) (P : Platform) (flt : option string)
    (o : Options) (environment : Node) :
  Spec.preparation P flt o = inr environment ->
  JS.truthy flt &&
    (JS.truthy (file o) || JS.truthy (describe o) || JS.truthy (test o)) = false /\
  exists files,
    readProjectFiles P (project o) = inr files /\
    buildEnvironment P files = inr environment /\
    outcome (Utils.validateEnvironment chalk P environment (skipValidations o)) =
      Ret tt /\
    interpret P environment = None.
Proof.
  unfold Spec.preparation.
  destruct (JS.truthy flt && _); [discriminate|].
  destruct (readProjectFiles P (project o)) as [e|files]; [discriminate|].
  destruct (buildEnvironment P files) as [e|env] eqn:Hbuild; [discriminate|].
  intros Hprep. split; [reflexivity|]. exists files.
  assert (Henv : env = environment /\ interpret P env = None /\
                 outcome (Utils.validateEnvironment chalk P env (skipValidations o)) =
                   Ret tt).
  { destruct (skipValidations o).
    - destruct (interpret P env); [discriminate Hprep|].
      injection Hprep as ->. auto.
    - rewrite validateEnvironment_throws.
      destruct (validate P env) as [e|problems]; [discriminate Hprep|].
      destruct (existsb Utils.is_error problems); [discriminate Hprep|].
      destruct (interpret P env); [discriminate Hprep|].
      injection Hprep as ->. auto. }
  destruct Henv as (-> & Hi & Hv). auto.
Qed.

Lemma ends_bind {A B : Type} (m : M A) (k : A -> M B) (a : A) (last_event : Event) :
  outcome m = Ret a ->
  (exists before, trace (k a) = (before ++ [last_event])%list) ->
  exists before, trace (bind m k) = (before ++ [last_event])%list.
Proof.
  intros Hm (before & Hk). rewrite trace_bind, Hm, Hk.
  exists (trace m ++ before)%list. now rewrite app_assoc.
Qed.

(** A run that reaches its tests ends its output with the summary. *)
Lemma default_ends_with_summary (chalk : Chalk) (P : Platform) (h : Heap)
    (flt : option string) (o : Options) (environment : Node) :
  Spec.preparation P flt o = inr environment ->
  let st :=
    fold_left (Traversal.count P h (getTarget h environment flt o))
      (forEach h environment) {| successes := 0; failures := [] |} in
  exists before,
    trace (default chalk P h flt o) =
    (before ++
     [Info [Utils.ENTER;
            Utils.successDescription chalk (JS.ofNat (successes st) ++ " passing");
            if (0 <? List.length (failures st))%nat then
              Utils.failureDescription chalk P
                (JS.ofNat (List.length (failures st)) ++ " failing") None
            else EmptyString;
            Utils.ENTER]])%list.
Proof.
  intros Hprep st.
  pose proof (default_outcome chalk P h flt o) as Hout.
  rewrite Hprep in Hout. cbv zeta in Hout. fold st in Hout.
  destruct (preparation_inr chalk P flt o environment Hprep)
    as (Hparams & files & Hread & Hbuild & Hval & Hi).
  unfold default in *. rewrite trace_catch.
  rewrite outcome_catch in Hout.
  match goal with
  | |- context [match outcome ?body with _ => _ end] =>
      assert (Hbody : forall e, outcome body <> Throw e)
  end.
  { intros e He. rewrite He in Hout. cbn in Hout.
    destruct (List.length (failures st)) in Hout; discriminate Hout. }
  match goal with
  | |- context [match outcome ?body with _ => _ end] =>
      assert (Hends : exists before,
                trace body =
                (before ++
                 [Info [Utils.ENTER;
                        Utils.successDescription chalk
                          (JS.ofNat (successes st) ++ " passing");
                        if (0 <? List.length (failures st))%nat then
                          Utils.failureDescription chalk P
                            (JS.ofNat (List.length (failures st)) ++ " failing") None
                        else EmptyString;
                        Utils.ENTER]])%list);
      [|destruct (outcome body) as [u|e|c] eqn:Hb;
        [exact Hends|now contradiction (Hbody e)|exact Hends]]
  end.
  apply ends_bind with (a := tt).
  { unfold validateParameters. now rewrite Hparams. }
  apply ends_bind with (a := tt); [reflexivity|].
  apply ends_bind with (a := environment).
  { now rewrite buildEnvironmentForProject_outcome, Hread, Hbuild. }
  apply ends_bind with (a := tt); [exact Hval|].
  cbv zeta.
  apply ends_bind with (a := tt); [reflexivity|].
  apply ends_bind with (a := tt); [apply outcome_when|].
  apply ends_bind with (a := st).
  { now rewrite runTests_outcome, Hi. }
  apply ends_bind with (a := tt); [reflexivity|].
  apply ends_bind with (a := tt); [apply outcome_when|].
  apply ends_bind with (a := tt); [apply reportFailures_outcome|].
  exists []. rewrite trace_bind. cbn [outcome emit snd trace fst].
  destruct (0 <? List.length (failures st))%nat; reflexivity.
Qed.

(** X16. When the run reaches its tests and every selected test passes,
    the traversal visiting each node once and every descendant, the last
    line of output is the summary, which counts as passing exactly the
    number of selected tests and has an empty failing part. *)
Theorem X16_summary_counts_the_selected_tests (chalk : Chalk) (P : Platform)
    (h : Heap) (flt : option string) (o : Options) (environment : Node) :
  Spec.preparation P flt o = inr environment ->
  NoDup (forEach h environment) ->
  NoDup (descendants h environment) ->
  (forall n, In n (descendants h environment) -> In n (forEach h environment)) ->
  (forall t, In t (getTarget h environment flt o) -> exec P t = None) ->
  last (trace (default chalk P h flt o)) Log =
  Info [Utils.ENTER;
        Utils.successDescription chalk
          (JS.ofNat (List.length (getTarget h environment flt o)) ++ " passing");
        EmptyString;
        Utils.ENTER].
Proof.
  intros Hprep Hnodes Hdesc Hvisit Hpass.
  destruct (default_ends_with_summary chalk P h flt o environment Hprep)
    as (before & ->).
  rewrite last_last.
  pose proof (count_total P h (getTarget h environment flt o)
                (forEach h environment) {| successes := 0; failures := [] |})
    as Htotal.
  rewrite (failures_empty P h _ _ Hpass) in *.
  cbn [successes failures List.length Nat.add Nat.ltb Nat.leb] in *.
  rewrite (executed_once h (getTarget h environment flt o) (forEach h environment))
    in Htotal.
  - replace (successes _) with (List.length (getTarget h environment flt o)) by lia.
    reflexivity.
  - exact Hnodes.
  - now apply getTarget_NoDup.
  - now apply getTarget_visited.
Qed.

Lemma X16_witness :
  last (trace (default Sample.plain (Sample.platform false false)
                 (Sample.heap Sample.noOnly) None Sample.noOptions)) Log =
  Info [Utils.ENTER;
        Utils.successDescription Sample.plain
          (JS.ofNat
             (List.length
                (getTarget (Sample.heap Sample.noOnly) 0 None Sample.noOptions)) ++
           " passing");
        EmptyString;
        Utils.ENTER].
Proof.
  apply (X16_summary_counts_the_selected_tests Sample.plain
           (Sample.platform false false) (Sample.heap Sample.noOnly)
           None Sample.noOptions 0).
  - reflexivity.
  - repeat constructor; cbn; intuition discriminate.
  - repeat constructor; cbn; intuition discriminate.
  - cbn. intuition.
  - intros t _. reflexivity.
Defined.

Lemma reaches_bind {A B : Type} (m : M A) (k : A -> M B) (a : A) (ev : Event) :
  outcome m = Ret a -> In ev (trace (k a)) -> In ev (trace (bind m k)).
Proof. intros Hm Hin. apply in_trace_bind. right. now exists a. Qed.

Lemma trace_bind_ret {A B : Type} (m : M A) (k : A -> M B) (a : A) :
  outcome m = Ret a -> trace (bind m k) = (trace m ++ trace (k a))%list.
Proof. intros Hm. now rewrite trace_bind, Hm. Qed.

Lemma buildEnvironmentForProject_logs_no_error (P : Platform) (project : string)
    (args : list string) :
  ~ In (LogError args) (trace (Utils.buildEnvironmentForProject P project)).
Proof.
  unfold Utils.buildEnvironmentForProject.
  destruct (debug P), (readProjectFiles P project) as [e|files]; cbn;
    try destruct (buildEnvironment P files); cbn;
    intuition discriminate.
Qed.

Lemma validateEnvironment_logs_no_error (chalk : Chalk) (P : Platform)
    (environment : Node) (skip : bool) (args : list string) :
  ~ In (LogError args) (trace (Utils.validateEnvironment chalk P environment skip)).
Proof.
  rewrite validateEnvironment_trace. destruct skip; [intros []|].
  intros [Hin|Hin]; [discriminate Hin|].
  destruct (validate P environment) as [e|problems].
  - destruct Hin as [Hin|[]]. discriminate Hin.
  - apply in_app_iff in Hin as [Hin|Hin].
    + apply in_map_iff in Hin as (p & Hp & _). discriminate Hp.
    + destruct (List.length problems =? 0)%nat;
        [|destruct (existsb Utils.is_error problems)];
        cbn in Hin; intuition discriminate.
Qed.

Lemma traversal_logs_no_error (chalk : Chalk) (P : Platform) (h : Heap)
    (targets nodes : list Node) (st : Tally) (args : list string) :
  ~ In (LogError args) (trace (forEachM (visit chalk P h targets) nodes st)).
Proof.
  rewrite traversal_returns. cbn [trace fst]. intros Hin.
  apply in_flat_map in Hin as (node & _ & Hin).
  unfold Traversal.events in Hin.
  destruct (is_Test h node); [destruct (includes targets node)|
    destruct (is_Entity h node);
    [destruct (Traversal.hasSelectedDescendant h targets node)|]];
    cbn in Hin; intuition discriminate.
Qed.

(** The output of a run that reaches its tests: what comes before the
    traversal, the traversal, and what comes after it. *)
Lemma default_trace_completed (chalk : Chalk) (P : Platform) (h : Heap)
    (flt : option string) (o : Options) (environment : Node) :
  Spec.preparation P flt o = inr environment ->
  let targets := getTarget h environment flt o in
  let traversal :=
    forEachM (visit chalk P h targets) (forEach h environment)
      {| successes := 0; failures := [] |} in
  exists before st,
    outcome traversal = Ret st /\
    (forall args, ~ In (LogError args) before) /\
    trace (default chalk P h flt o) =
    (before ++ trace traversal ++
     Log :: trace (when (debug P) (emit (TimeEnd "Run finished"))) ++
     trace (forEachM (reportFailure chalk P h) (failures st) tt) ++
     [Info [Utils.ENTER;
            Utils.successDescription chalk
              (JS.ofNat (successes st) ++ " passing")%string;
            if (0 <? List.length (failures st))%nat then
              Utils.failureDescription chalk P
                (JS.ofNat (List.length (failures st)) ++ " failing")%string None
            else EmptyString;
            Utils.ENTER]])%list.
Proof.
  intros Hprep targets traversal.
  pose proof (default_outcome chalk P h flt o) as Hout.
  rewrite Hprep in Hout. cbv zeta in Hout.
  destruct (preparation_inr chalk P flt o environment Hprep)
    as (Hparams & files & Hread & Hbuild & Hval & Hi).
  set (st := fold_left (Traversal.count P h targets) (forEach h environment)
               {| successes := 0; failures := [] |}) in *.
  assert (Htraversal : traversal = (trace traversal, Ret st)).
  { unfold traversal. now rewrite traversal_returns. }
  exists ((Info [("Running all tests " ++
                  (if JS.truthy flt then
                     "matching " ++
                     Utils.valueDescription chalk (JS.nullish flt EmptyString) ++ " "
                   else EmptyString) ++
                  "on " ++ Utils.valueDescription chalk (project o))%string] ::
           trace (Utils.buildEnvironmentForProject P (project o))) ++
          trace (Utils.validateEnvironment chalk P environment (skipValidations o)) ++
          Info [("Running " ++ JS.ofNat (List.length targets) ++ " tests...")%string] ::
          trace (when (debug P) (emit (Time "Run finished"))) ++
          [Interpret environment])%list, st.
  split; [now rewrite Htraversal|]. split.
  { intros args Hin.
    apply in_app_iff in Hin as [[Hin|Hin]|Hin]; [discriminate Hin| |].
    - now apply buildEnvironmentForProject_logs_no_error in Hin.
    - apply in_app_iff in Hin as [Hin|[Hin|Hin]].
      + now apply validateEnvironment_logs_no_error in Hin.
      + discriminate Hin.
      + apply in_app_iff in Hin as [Hin|[Hin|[]]]; [|discriminate Hin].
        apply when_events in Hin. discriminate Hin. }
  unfold default in *. rewrite trace_catch.
  rewrite outcome_catch in Hout.
  match goal with
  | |- context [match outcome ?body with _ => _ end] =>
      assert (Hbody : forall e, outcome body <> Throw e)
  end.
  { intros e He. rewrite He in Hout. cbv beta iota in Hout.
    change (outcome _) with (@Halt unit 1%Z) in Hout.
    destruct (0 <? _)%nat in Hout; discriminate Hout. }
  match goal with
  | |- match outcome ?body with _ => _ end = ?rhs =>
      assert (Hends : trace body = rhs);
      [|destruct (outcome body) as [u|e|c] eqn:Hb;
        [exact Hends|now contradiction (Hbody e)|exact Hends]]
  end.
  rewrite (trace_bind_ret _ _ tt)
    by (unfold validateParameters; now rewrite Hparams).
  replace (trace (validateParameters P flt o)) with (@nil Event)
    by (unfold validateParameters; now rewrite Hparams).
  rewrite (trace_bind_ret _ _ tt) by reflexivity.
  rewrite (trace_bind_ret _ _ environment)
    by now rewrite buildEnvironmentForProject_outcome, Hread, Hbuild.
  rewrite (trace_bind_ret _ _ tt) by exact Hval.
  cbv zeta. fold targets.
  rewrite (trace_bind_ret _ _ tt) by reflexivity.
  rewrite (trace_bind_ret _ _ tt) by apply outcome_when.
  rewrite (trace_bind_ret _ _ st)
    by (unfold targets, st; now rewrite runTests_outcome, Hi).
  rewrite (trace_bind_ret _ _ tt) by reflexivity.
  rewrite (trace_bind_ret _ _ tt) by apply outcome_when.
  rewrite (trace_bind_ret _ _ tt) by apply reportFailures_outcome.
  rewrite (trace_bind_ret _ _ tt) by reflexivity.
  replace (trace (runTests chalk P h environment targets))
    with (Interpret environment :: trace traversal).
  2:{ unfold runTests. rewrite (trace_bind_ret _ _ tt) by reflexivity.
      rewrite (trace_bind_ret _ _ tt) by now rewrite Hi.
      rewrite Hi. reflexivity. }
  replace (trace (if (0 <? List.length (failures st))%nat
                  then exit 2%Z else ret tt)) with (@nil Event)
    by now destruct (0 <? List.length (failures st))%nat.
  cbn [trace emit fst app].
  rewrite <- !app_assoc. cbn [app]. rewrite <- !app_assoc. reflexivity.
Qed.

(** X17. When the run reaches its tests, every selected test that the
    traversal visits and whose execution throws is reported after the
    traversal: the output of the run is what precedes the traversal, then
    the traversal, then the rest; the error line made of the test's
    fully-qualified name, in bold, and of the stack of what it threw is in
    the rest; no test is executed in the rest; and nothing is logged as an
    error before the rest. *)
Theorem X17_every_failure_is_reported (chalk : Chalk) (P : Platform) (h : Heap)
    (flt : option string) (o : Options) (environment t : Node) (e : Error) :
  Spec.preparation P flt o = inr environment ->
  In t (getTarget h environment flt o) ->
  In t (forEach h environment) ->
  exec P t = Some e ->
  let traversal :=
    trace (forEachM (visit chalk P h (getTarget h environment flt o))
             (forEach h environment) {| successes := 0; failures := [] |}) in
  exists before rest,
    trace (default chalk P h flt o) = (before ++ traversal ++ rest)%list /\
    In (LogError
          [Utils.failureDescription chalk P (bold chalk (fullyQualifiedName h t))
             (Some e)])
       rest /\
    (forall t', ~ In (Exec t') rest) /\
    (forall args, ~ In (LogError args) (before ++ traversal)).
Proof.
  intros Hprep Ht Hvisit Hexec traversal.
  destruct (default_trace_completed chalk P h flt o environment Hprep)
    as (before & st & Hst & Hbefore & Htrace).
  cbv zeta in Hst, Htrace. fold traversal in Htrace.
  assert (Hst' : st = fold_left (Traversal.count P h (getTarget h environment flt o))
                        (forEach h environment) {| successes := 0; failures := [] |}).
  { rewrite traversal_returns in Hst. cbn in Hst. now injection Hst. }
  assert (Hrecorded : In (t, e) (failures st)).
  { rewrite Hst'. apply (count_failures P h). right.
    repeat split; try assumption.
    apply executed_iff. split; [|exact Ht].
    now apply getTarget_incl, possibleTargets_In in Ht. }
  eexists before, _. split; [exact Htrace|]. split; [|split].
  - right. apply in_app_iff. right. apply in_app_iff. left.
    rewrite (forEachM_returns _
               (fun failure =>
                  [Log;
                   LogError
                     [Utils.failureDescription chalk P
                        (bold chalk (fullyQualifiedName h (fst failure)))
                        (Some (snd failure))]])
               (fun _ _ => tt)) by (intros [t' e'] []; reflexivity).
    cbn [trace fst]. apply in_flat_map. exists (t, e).
    split; [exact Hrecorded|]. cbn. auto.
  - intros t' [Hin|Hin]; [discriminate Hin|].
    apply in_app_iff in Hin as [Hin|Hin].
    + apply when_events in Hin. discriminate Hin.
    + apply in_app_iff in Hin as [Hin|[Hin|[]]]; [|discriminate Hin].
      apply reportFailures_events in Hin. discriminate Hin.
  - intros args Hin. apply in_app_iff in Hin as [Hin|Hin].
    + now apply Hbefore in Hin.
    + now apply traversal_logs_no_error in Hin.
Qed.

Lemma X17_witness :
  let traversal :=
    trace (forEachM
             (visit Sample.plain (Sample.platform true false)
                (Sample.heap Sample.noOnly)
                (getTarget (Sample.heap Sample.noOnly) 0 None Sample.noOptions))
             (forEach (Sample.heap Sample.noOnly) 0)
             {| successes := 0; failures := [] |}) in
  exists before rest,
    trace (default Sample.plain (Sample.platform true false)
             (Sample.heap Sample.noOnly) None Sample.noOptions) =
      (before ++ traversal ++ rest)%list /\
    In (LogError
          [Utils.failureDescription Sample.plain (Sample.platform true false)
             (bold Sample.plain (fullyQualifiedName (Sample.heap Sample.noOnly) 4))
             (Some Sample.boom)])
       rest /\
    (forall t', ~ In (Exec t') rest) /\
    (forall args, ~ In (LogError args) (before ++ traversal)).
Proof.
  apply (X17_every_failure_is_reported Sample.plain (Sample.platform true false)
           (Sample.heap Sample.noOnly) None Sample.noOptions 0 4 Sample.boom).
  - reflexivity.
  - cbn. auto.
  - cbn. auto 10.
  - reflexivity.
Defined.

(** X18. When the project's files cannot be read, the builder is not
    called and the error is thrown on as it is; when they are read and
    the builder throws, its error is thrown on as it is. *)
Theorem X18_loading_errors_propagate (P : Platform) (project : string) :
  (forall e, readProjectFiles P project = inl e ->
     outcome (Utils.buildEnvironmentForProject P project) = Throw e /\
     ~ In Build (trace (Utils.buildEnvironmentForProject P project))) /\
  (forall files e, readProjectFiles P project = inr files ->
     buildEnvironment P files = inl e ->
     outcome (Utils.buildEnvironmentForProject P project) = Throw e /\
     In Build (trace (Utils.buildEnvironmentForProject P project))).
Proof.
  split.
  - intros e Hread. rewrite buildEnvironmentForProject_outcome, Hread.
    split; [reflexivity|].
    unfold Utils.buildEnvironmentForProject. rewrite Hread.
    destruct (debug P); cbn; intuition discriminate.
  - intros files e Hread Hbuild.
    rewrite buildEnvironmentForProject_outcome, Hread, Hbuild.
    split; [reflexivity|].
    unfold Utils.buildEnvironmentForProject. rewrite Hread.
    destruct (debug P); cbn; rewrite Hbuild; cbn; auto 10.
Qed.

Lemma X18_witness :
  outcome (Utils.buildEnvironmentForProject (Sample.platform false true) ".") =
    Throw {| message := "malformed"; stack := None |} /\
  In Build (trace (Utils.buildEnvironmentForProject (Sample.platform false true) ".")).
Proof.
  apply (X18_loading_errors_propagate (Sample.platform false true) ".")
    with (files := [{| file_name := "pkg.wtest"; content := EmptyString |}]);
    reflexivity.
Defined.
